(** * NexusAuto front end: session, HTTP wrapper, route guard, validators

    A shallow embedding of the client-side logic of the NexusAuto front end
    (TypeScript / React / Next.js) together with the properties its
    specification states about it.

    The embedding follows the source files:
    - [JS]         : the fragment of JavaScript values the code relies on
                     (UTF-16 strings, truthiness, [trim], [startsWith]);
    - [RegExp]     : the regular-expression literals used by the validators,
                     run by a small matcher that lists every way to match;
    - [Forms]      : [validateForm] and [validatePassword];
    - [Types]      : the data transfer objects of [lib/types.ts];
    - [Store]      : the session store ([@/lib/store/auth]);
    - [Runtime]    : the store, the location, the router and the console as
                     one world, and computations over it;
    - [Http]       : the axios interceptors and [handleApiError];
    - [Guard]      : the [ProtectedRoute] component, its wrappers and the
                     [useRouteProtection] hook;
    - [Middleware] : the edge middleware;
    - [Navigation] : the links of the navigation bar;
    - [RegisterForm], [ProfileManager] : the handlers of the two forms;
    - [Booking]    : the authentication check of the booking page;
    - [Spec]       : the words of the specification;
    - [Samples]    : concrete inputs.
    The properties follow, component by component. *)

From Stdlib Require Import NArith ZArith Ascii String Lia.
From stdpp Require Import base option list gmap strings.

Local Open Scope N_scope.

(* ===================================================================== *)
(** ** JavaScript values *)
(* ===================================================================== *)

Module JS.

(** A JavaScript string is a sequence of UTF-16 code units.  All of the
    source's string operations ([length], [===], regular expressions
    without the [u] flag) work on code units, so this is the view taken
    here. *)
Abbreviation jsstr := (list N).

(** A source literal made of ASCII characters. *)
Definition js (s : string) : jsstr :=
  List.map N_of_ascii (list_ascii_of_string s).
Global Arguments js : simpl never.

(** [!s] is true exactly for the empty string. *)
Definition truthy_str (s : jsstr) : bool :=
  match s with [] => false | _ :: _ => true end.

(** Truthiness of a [string | null] value. *)
Definition truthy_opt_str (o : option jsstr) : bool :=
  match o with Some s => truthy_str s | None => false end.

(** Truthiness of an [object | null] or [object | undefined] value. *)
Definition truthy_obj {A : Type} (o : option A) : bool :=
  match o with Some _ => true | None => false end.

(** ECMAScript LineTerminator: LF, CR, LS, PS. *)
Definition is_line_terminator (c : N) : bool :=
  (c =? 10) || (c =? 13) || (c =? 8232) || (c =? 8233).

(** ECMAScript WhiteSpace together with LineTerminator: what [\s]
    matches and what [trim] strips. *)
Definition is_space (c : N) : bool :=
  (c =? 9) || (c =? 10) || (c =? 11) || (c =? 12) || (c =? 13) ||
  (c =? 32) || (c =? 160) || (c =? 5760) ||
  ((8192 <=? c) && (c <=? 8202)) ||
  (c =? 8232) || (c =? 8233) || (c =? 8239) || (c =? 8287) ||
  (c =? 12288) || (c =? 65279).

Fixpoint trimStart (s : jsstr) : jsstr :=
  match s with
  | c :: t => if is_space c then trimStart t else s
  | [] => []
  end.

Definition trimEnd (s : jsstr) : jsstr := rev (trimStart (rev s)).

(** [String.prototype.trim]. *)
Definition trim (s : jsstr) : jsstr := trimEnd (trimStart s).

(** [String.prototype.startsWith]. *)
Fixpoint startsWith (s prefix : jsstr) : bool :=
  match prefix, s with
  | [], _ => true
  | p :: prefix', c :: s' => (c =? p) && startsWith s' prefix'
  | _ :: _, [] => false
  end.

(** [===] on strings. *)
Definition str_eqb (a b : jsstr) : bool := bool_decide (a = b).

(** [Array.prototype.includes] on an array of strings. *)
Definition includes (l : list jsstr) (x : jsstr) : bool :=
  existsb (str_eqb x) l.

End JS.
Import JS.

(* ===================================================================== *)
(** ** Regular expressions *)
(* ===================================================================== *)

Module RegExp.

(** The constructs that occur in the source's regular-expression
    literals.  A [Class] covers every single-character atom: a literal
    character, an escape such as [\S] or [\d], a bracket class and the
    dot. *)
Inductive regex : Type :=
| Class (p : N → bool)
| Seq (a b : regex)
| Star (a : regex)
| Plus (a : regex)
| LookAhead (a : regex).

(** Atoms. *)
Definition lit (c : N) : regex := Class (N.eqb c).
Definition range (lo hi : N) : regex :=
  Class (λ c, (lo <=? c) && (c <=? hi)).
(** [.] without the [s] flag: anything but a line terminator. *)
Definition dot : regex := Class (λ c, negb (is_line_terminator c)).
(** [\S] *)
Definition nonspace : regex := Class (λ c, negb (is_space c)).
(** [\d] *)
Definition digit : regex := range 48 57.

(** Repetition of a matcher [m]: every string left over after zero or
    more rounds of [m].  As in ECMAScript, a round that consumes nothing
    is not repeated, so [length s] rounds are enough. *)
Fixpoint iterate (m : jsstr → list jsstr) (fuel : nat) (s : jsstr)
  : list jsstr :=
  s :: match fuel with
       | O => []
       | S fuel' =>
           List.filter (λ s', (length s' <? length s)%nat) (m s)
             ≫= iterate m fuel'
       end.

(** [rmatch r s] lists what can remain of [s] after [r] has matched a
    prefix of it.  [test] only asks whether a match exists, so the order
    in which a backtracking matcher would try the alternatives does not
    matter. *)
Fixpoint rmatch (r : regex) (s : jsstr) : list jsstr :=
  match r with
  | Class p =>
      match s with
      | c :: t => if p c then [t] else []
      | [] => []
      end
  | Seq a b => rmatch a s ≫= rmatch b
  | Star a => iterate (rmatch a) (length s) s
  | Plus a => rmatch a s ≫= (λ s', iterate (rmatch a) (length s') s')
  | LookAhead a =>
      match rmatch a s with
      | [] => []
      | _ :: _ => [s]
      end
  end.

Definition matches_at (r : regex) (s : jsstr) : bool :=
  match rmatch r s with [] => false | _ :: _ => true end.

(** Every start position of a search, the end of the string included. *)
Fixpoint suffixes (s : jsstr) : list jsstr :=
  s :: match s with
       | [] => []
       | _ :: t => suffixes t
       end.

(** [RegExp.prototype.test] for a literal without flags: the pattern is
    searched for at every position. *)
Definition test (r : regex) (s : jsstr) : bool :=
  existsb (matches_at r) (suffixes s).

(** [/\S+@\S+\.\S+/] *)
Definition email_re : regex :=
  Seq (Plus nonspace)
    (Seq (lit 64)
       (Seq (Plus nonspace)
          (Seq (lit 46) (Plus nonspace)))).

(** [/(?=.*[a-z])(?=.*[A-Z])(?=.*\d)/] *)
Definition password_re : regex :=
  Seq (LookAhead (Seq (Star dot) (range 97 122)))
    (Seq (LookAhead (Seq (Star dot) (range 65 90)))
       (LookAhead (Seq (Star dot) digit))).

End RegExp.
Import RegExp.

(* ===================================================================== *)
(** ** Form validators *)
(* ===================================================================== *)

Module Forms.

(** [RegisterRequest & { confirmPassword: string }] *)
Record RegisterFormData : Type := {
  firstName : jsstr;
  lastName : jsstr;
  email : jsstr;
  password : jsstr;
  confirmPassword : jsstr;
}.

(** [validateForm] of [RegisterForm.tsx].  The first component is the
    mapping handed to [setErrors], the second the returned boolean. *)
Definition validateForm (formData : RegisterFormData)
  : gmap string string * bool :=
  let newErrors : gmap string string := ∅ in
  (* First name validation *)
  let newErrors :=
    if negb (truthy_str (trim (firstName formData))) then
      <["firstName" := "First name is required"]> newErrors
    else if (length (trim (firstName formData)) <? 2)%nat then
      <["firstName" := "First name must be at least 2 characters"]> newErrors
    else newErrors in
  (* Last name validation *)
  let newErrors :=
    if negb (truthy_str (trim (lastName formData))) then
      <["lastName" := "Last name is required"]> newErrors
    else if (length (trim (lastName formData)) <? 2)%nat then
      <["lastName" := "Last name must be at least 2 characters"]> newErrors
    else newErrors in
  (* Email validation *)
  let newErrors :=
    if negb (truthy_str (email formData)) then
      <["email" := "Email is required"]> newErrors
    else if negb (test email_re (email formData)) then
      <["email" := "Email is invalid"]> newErrors
    else newErrors in
  (* Password validation *)
  let newErrors :=
    if negb (truthy_str (password formData)) then
      <["password" := "Password is required"]> newErrors
    else if (length (password formData) <? 8)%nat then
      <["password" := "Password must be at least 8 characters"]> newErrors
    else if negb (test password_re (password formData)) then
      <["password" := "Password must contain at least one uppercase letter, one lowercase letter, and one number"]> newErrors
    else newErrors in
  (* Confirm password validation *)
  let newErrors :=
    if negb (truthy_str (confirmPassword formData)) then
      <["confirmPassword" := "Please confirm your password"]> newErrors
    else if negb (str_eqb (password formData) (confirmPassword formData)) then
      <["confirmPassword" := "Passwords do not match"]> newErrors
    else newErrors in
  (newErrors, bool_decide (size newErrors = 0%nat)).

(** [ChangePasswordRequest] *)
Record ChangePasswordRequest : Type := {
  currentPassword : jsstr;
  newPassword : jsstr;
}.

(** [validatePassword] of [ProfileManager.tsx]; [confirmPassword] is a
    separate piece of component state there. *)
Definition validatePassword (passwordData : ChangePasswordRequest)
    (confirmPassword : jsstr) : gmap string string * bool :=
  let errors : gmap string string := ∅ in
  let errors :=
    if negb (truthy_str (currentPassword passwordData)) then
      <["currentPassword" := "Current password is required"]> errors
    else errors in
  let errors :=
    if negb (truthy_str (newPassword passwordData)) then
      <["newPassword" := "New password is required"]> errors
    else if (length (newPassword passwordData) <? 8)%nat then
      <["newPassword" := "Password must be at least 8 characters"]> errors
    else if negb (test password_re (newPassword passwordData)) then
      <["newPassword" := "Password must contain at least one uppercase letter, one lowercase letter, and one number"]> errors
    else errors in
  let errors :=
    if negb (truthy_str confirmPassword) then
      <["confirmPassword" := "Please confirm your new password"]> errors
    else if negb (str_eqb (newPassword passwordData) confirmPassword) then
      <["confirmPassword" := "Passwords do not match"]> errors
    else errors in
  let errors :=
    if str_eqb (currentPassword passwordData) (newPassword passwordData) then
      <["newPassword" := "New password must be different from current password"]> errors
    else errors in
  (errors, bool_decide (size errors = 0%nat)).

End Forms.

(* ===================================================================== *)
(** ** Data transfer objects ([lib/types.ts]) *)
(* ===================================================================== *)

Module Types.

(** ["ROLE_CUSTOMER" | "ROLE_EMPLOYEE" | "ROLE_ADMIN"] *)
Inductive UserRole : Type := ROLE_CUSTOMER | ROLE_EMPLOYEE | ROLE_ADMIN.

(** The string each role is at run time. *)
Definition role_name (r : UserRole) : jsstr :=
  match r with
  | ROLE_CUSTOMER => js "ROLE_CUSTOMER"
  | ROLE_EMPLOYEE => js "ROLE_EMPLOYEE"
  | ROLE_ADMIN => js "ROLE_ADMIN"
  end.

Record UserResponse : Type := {
  id : Z;
  firstName : jsstr;
  lastName : jsstr;
  email : jsstr;
  role : UserRole;
  enabled : bool;
}.

Record AuthState : Type := {
  token : option jsstr;
  user : option UserResponse;
  isLoading : bool;
  isAuthenticated : bool;
}.

#[export] Instance UserRole_eq_dec : EqDecision UserRole.
Proof. solve_decision. Defined.

#[export] Instance UserResponse_eq_dec : EqDecision UserResponse.
Proof. solve_decision. Defined.

End Types.
Import Types.

(* ===================================================================== *)
(** ** Session store ([@/lib/store/auth]) *)
(* ===================================================================== *)

Module Store.

(** Modelled from the spec: the store created at process start, which is
    not among the sources.  "Created empty at process start." *)
Definition initial : AuthState :=
  {| token := None; user := None; isLoading := false;
     isAuthenticated := false |}.

(** Modelled from the spec: the store action [login], which is not among
    the sources.  "[login(token, user)] sets both fields and marks
    authenticated." *)
Definition login (t : jsstr) (u : UserResponse) (s : AuthState) : AuthState :=
  {| token := Some t; user := Some u; isLoading := isLoading s;
     isAuthenticated := true |}.

(** Modelled from the spec: the store action [logout], which is not among
    the sources.  "[logout()] clears both"; the authenticated mark goes
    with them. *)
Definition logout (s : AuthState) : AuthState :=
  {| token := None; user := None; isLoading := isLoading s;
     isAuthenticated := false |}.

(** Modelled from the spec: the store action [updateUser], which is not
    among the sources.  "[updateUser(user)] replaces the user record
    only", "without touching the token". *)
Definition updateUser (u : UserResponse) (s : AuthState) : AuthState :=
  {| token := token s; user := Some u; isLoading := isLoading s;
     isAuthenticated := isAuthenticated s |}.

(** Modelled from the spec: the store action [setLoading], which is not
    among the sources.  It "tracks in-flight authentication checks". *)
Definition setLoading (b : bool) (s : AuthState) : AuthState :=
  {| token := token s; user := user s; isLoading := b;
     isAuthenticated := isAuthenticated s |}.

(** Modelled from the spec: [hasRole] of the [useAuthRole] hook, which is
    not among the sources.  "Role comparison is case-sensitive exact
    match" against the role of the cached user. *)
Definition hasRole (s : AuthState) (r : jsstr) : bool :=
  match user s with
  | Some u => str_eqb (role_name (role u)) r
  | None => false
  end.

(** The calls a client of the store can make. *)
Inductive action : Type :=
| Login (t : jsstr) (u : UserResponse)
| Logout
| UpdateUser (u : UserResponse)
| SetLoading (b : bool).

Definition apply (a : action) (s : AuthState) : AuthState :=
  match a with
  | Login t u => login t u s
  | Logout => logout s
  | UpdateUser u => updateUser u s
  | SetLoading b => setLoading b s
  end.

(** The states observable between the calls of a sequence, oldest first:
    the state before the first call, then the state after each call. *)
Fixpoint observe (acts : list action) (s : AuthState) : list AuthState :=
  s :: match acts with
       | [] => []
       | a :: acts' => observe acts' (apply a s)
       end.

(** What the [isAuthenticated] field is meant to be. *)
Definition derived_isAuthenticated (s : AuthState) : bool :=
  bool_decide (token s ≠ None) && bool_decide (user s ≠ None).

(** What the store's actions preserve.  The agreement of the mark with
    the two fields is not preserved on its own ([updateUser] on a state
    with a token and no user would break it); together with "a token is
    never held without a user" it is. *)
Definition session_inv (s : AuthState) : Prop :=
  isAuthenticated s = bool_decide (token s ≠ None)
  ∧ (token s ≠ None → user s ≠ None).

End Store.

(* ===================================================================== *)
(** ** The browser around the code: store, location, router, console *)
(* ===================================================================== *)

Module Runtime.

(** What the code does to its surroundings, in the order it does it. *)
Inductive event : Type :=
| EvStore (a : Store.action)          (* a store action was called *)
| EvLocationAssign (href : jsstr)     (* [window.location.href = href] *)
| EvRouterPush (path : jsstr)         (* [router.push(path)] *)
| EvConsoleError (msg : string).      (* [console.error(msg, ...)] *)

(** [window] is [None] where [typeof window] is ["undefined"] (server-side
    rendering), otherwise it holds [window.location.href]. *)
Record World : Type := {
  store : AuthState;
  window : option jsstr;
  events : list event;
}.

(** Computations that read and change the world. *)
Definition M (A : Type) : Type := World → A * World.

#[export] Instance M_ret : MRet M := λ A a w, (a, w).
#[export] Instance M_bind : MBind M :=
  λ A B f m w, let '(a, w') := m w in f a w'.

Definition emit (e : event) : M unit :=
  λ w, (tt, {| store := store w; window := window w;
               events := events w ++ [e] |}).

(** Calling a store action. *)
Definition dispatch (a : Store.action) : M unit :=
  λ w, (tt, {| store := Store.apply a (store w); window := window w;
               events := events w ++ [EvStore a] |}).

Definition console_error (msg : string) : M unit := emit (EvConsoleError msg).

Definition router_push (path : jsstr) : M unit := emit (EvRouterPush path).

(** [typeof window !== "undefined"] *)
Definition window_defined : M bool :=
  λ w, (truthy_obj (window w), w).

(** [window.location.href = href], only reached where [window] exists. *)
Definition location_assign (href : jsstr) : M unit :=
  λ w, (tt, {| store := store w; window := Some href;
               events := events w ++ [EvLocationAssign href] |}).

Definition when (b : bool) (m : M unit) : M unit :=
  if b then m else mret tt.

(** How a promise settles. *)
Inductive Settled (A E : Type) : Type :=
| Fulfilled (a : A)
| Rejected (e : E).
Arguments Fulfilled {A E} a.
Arguments Rejected {A E} e.

End Runtime.
Import Runtime.

(* ===================================================================== *)
(** ** HTTP client wrapper ([lib/api/client]) *)
(* ===================================================================== *)

Module Http.

(** A response body ([any]).  Numbers are kept to the integers; nothing
    here computes with them. *)
#[warnings="-register-all"] Inductive JsValue : Type :=
| VUndefined
| VNull
| VBool (b : bool)
| VNumber (n : Z)
| VString (s : jsstr)
| VObject (fields : list (string * JsValue)).

(** ToBoolean, as used by [||]. *)
Definition truthy (v : JsValue) : bool :=
  match v with
  | VUndefined | VNull => false
  | VBool b => b
  | VNumber n => negb (n =? 0)%Z
  | VString s => truthy_str s
  | VObject _ => true
  end.

Record AxiosResponse : Type := {
  status : Z;
  data : JsValue;
}.

(** The part of an [AxiosError] the code reads.  [response] is absent
    when no response arrived. *)
Record AxiosError : Type := {
  response : option AxiosResponse;
  message : jsstr;
}.

(** [error.response?.status === n] *)
Definition response_status_is (error : AxiosError) (n : Z) : bool :=
  match response error with
  | Some r => (status r =? n)%Z
  | None => false
  end.

(** The rejection handler given to [apiClient.interceptors.response.use]. *)
Definition responseError (error : AxiosError)
  : M (Settled AxiosResponse AxiosError) :=
  (* Handle 401 Unauthorized - token expired or invalid *)
  when (response_status_is error 401)
    (dispatch Store.Logout ;;
     inBrowser ← window_defined ;
     when inBrowser (location_assign (js "/login"))) ;;
  (* Handle 403 Forbidden - insufficient permissions *)
  when (response_status_is error 403)
    (console_error "Access forbidden: Insufficient permissions") ;;
  (* Handle network errors *)
  when (negb (truthy_obj (response error)))
    (console_error "Network error: Please check your internet connection") ;;
  mret (Rejected error).

(** How evaluating an expression ends. *)
Inductive Completion (A : Type) : Type :=
| Normal (a : A)
| Throw (exn : JsValue).
Arguments Normal {A} a.
Arguments Throw {A} exn.

#[export] Instance Completion_ret : MRet Completion := λ A a, Normal a.
#[export] Instance Completion_bind : MBind Completion :=
  λ A B f c, match c with
             | Normal a => f a
             | Throw exn => Throw exn
             end.

(** [error.response?.data] for an [AxiosError]: the optional chain yields
    [undefined] on a missing response. *)
Definition response_data (error : AxiosError) : JsValue :=
  match response error with
  | Some r => data r
  | None => VUndefined
  end.

(** The own property [k] of a plain object, each property being listed
    once; a property that is not there reads as [undefined]. *)
Fixpoint get_field (k : string) (fields : list (string * JsValue))
  : JsValue :=
  match fields with
  | [] => VUndefined
  | (k', v) :: rest => if String.eqb k k' then v else get_field k rest
  end.

(** What a [catch] clause can receive ([unknown]): plain data, or any other
    object.  Such an object is given by what reading each of its properties
    does (a getter or a proxy may throw, or hand out another such object)
    and by whether it is callable, in which case [typeof] says
    ["function"]. *)
#[warnings="-register-all"] Inductive Unknown : Type :=
| Plain (v : JsValue)
| Exotic (callable : bool) (get : string → Completion Unknown).

(** [v.k].  Reading a property of [undefined] or [null] throws a
    [TypeError]; a boolean, a number or a string has none of the properties
    the code reads. *)
Definition read (v : Unknown) (k : string) : Completion Unknown :=
  match v with
  | Plain VUndefined | Plain VNull => Throw (VString (js "TypeError"))
  | Plain (VObject fields) => Normal (Plain (get_field k fields))
  | Plain (VBool _) | Plain (VNumber _) | Plain (VString _) =>
      Normal (Plain VUndefined)
  | Exotic _ get => get k
  end.

(** [v?.k] *)
Definition read_opt (v : Unknown) (k : string) : Completion Unknown :=
  match v with
  | Plain VUndefined | Plain VNull => Normal (Plain VUndefined)
  | _ => read v k
  end.

(** ToBoolean on any value: objects are truthy. *)
Definition truthy_unknown (v : Unknown) : bool :=
  match v with
  | Plain d => truthy d
  | Exotic _ _ => true
  end.

(** axios's [isObject]: [thing !== null && typeof thing === "object"]. *)
Definition isObject (thing : Unknown) : bool :=
  match thing with
  | Plain (VObject _) => true
  | Plain _ => false
  | Exotic callable _ => negb callable
  end.

(** [axios.isAxiosError]:
    [isObject(payload) && payload.isAxiosError === true]. *)
Definition isAxiosError (payload : Unknown) : Completion bool :=
  if isObject payload then
    flag ← read payload "isAxiosError" ;
    mret (match flag with
          | Plain (VBool true) => true
          | _ => false
          end)
  else mret false.

(** [handleApiError].  Its declared result type is [string]; nothing at
    run time makes the result one. *)
Definition handleApiError (error : Unknown) : Completion Unknown :=
  axiosError ← isAxiosError error ;
  if axiosError : bool then
    (* return error.response?.data || error.message; *)
    resp ← read error "response" ;
    body ← read_opt resp "data" ;
    if truthy_unknown body then mret body else read error "message"
  else
    mret (Plain (VString
                   (js "An unexpected error occurred. Please try again."))).

(** The object a failed request is rejected with, as far as the code
    reads it: the flag, the message and the response. *)
Definition rejection (e : AxiosError) : Unknown :=
  Plain (VObject
           [("isAxiosError", VBool true);
            ("message", VString (message e));
            ("response",
             match response e with
             | Some r => VObject [("status", VNumber (status r));
                                  ("data", data r)]
             | None => VUndefined
             end)]).

(** What [handleApiError] hands to a state setter in the [catch] of a
    failed request.  For a rejection it completes normally with plain
    data; the empty string stands in where it would not. *)
Definition displayed (e : AxiosError) : JsValue :=
  match handleApiError (rejection e) with
  | Normal (Plain v) => v
  | _ => VString (js "")
  end.

(** The part of a request configuration the code can tell apart: where
    the request goes, how, and its headers. *)
Record RequestConfig : Type := {
  url : jsstr;
  method : string;
  headers : gmap string jsstr;
}.

(** The handler given to [apiClient.interceptors.request.use]: it reads the
    token off the store and, if there is one, sets the [Authorization]
    header to [`Bearer ${token}`]. *)
Definition requestInterceptor (config : RequestConfig) : M RequestConfig :=
  λ w,
    let token := token (store w) in
    (if truthy_opt_str token then
       {| url := url config;
          method := method config;
          headers := <["Authorization" := js "Bearer " ++ default [] token]>
                       (headers config) |}
     else config,
     w).

End Http.

(* ===================================================================== *)
(** ** Route guard ([ProtectedRoute]) *)
(* ===================================================================== *)

Module Guard.

(** [React.ReactNode], as far as [||] can tell its values apart. *)
Inductive ReactNode : Type :=
| RUndefined
| RNull
| RBool (b : bool)
| RNumber (n : Z)
| RText (s : jsstr)
| RElement (name : string).

Definition truthy_node (n : ReactNode) : bool :=
  match n with
  | RUndefined | RNull => false
  | RBool b => b
  | RNumber n => negb (n =? 0)%Z
  | RText s => truthy_str s
  | RElement _ => true
  end.

(** [ProtectedRouteProps]; an omitted [requiredRole] is [[]], an omitted
    [fallback] is [RUndefined]. *)
Record ProtectedRouteProps : Type := {
  children : ReactNode;
  requiredRole : list jsstr;
  fallback : ReactNode;
}.

(** What the component returns from a render. *)
Inductive View : Type :=
| ViewSpinner                      (* the loading indicator *)
| ViewNull                         (* [return null] *)
| ViewFallback (n : ReactNode)     (* the [fallback] prop *)
| View403                          (* the built-in "403 Access Forbidden" view *)
| ViewChildren (n : ReactNode).    (* [<>{children}</>] *)

(** A mounted guard: the world, the component's [isInitialized], and
    how many events the world had seen when the guard was mounted. *)
Record Mounted : Type := {
  world : World;
  isInitialized : bool;
  mountedAt : nat;
}.

(** [userApi.getProfile()] through [apiClient]: a failed request passes
    the response interceptor before the caller sees the rejection. *)
Definition getProfile (reply : Settled UserResponse Http.AxiosError)
  : M (Settled UserResponse Http.AxiosError) :=
  match reply with
  | Fulfilled u => mret (Fulfilled u)
  | Rejected e => Http.responseError e ;; mret (Rejected e)
  end.

(** [initializeAuth], with the [token] and [user] of the render that
    created the effect.  The result tells whether [setIsInitialized(true)]
    ran. *)
Definition initializeAuth (token : option jsstr) (user : option UserResponse)
    (reply : Settled UserResponse Http.AxiosError) : M bool :=
  dispatch (Store.SetLoading true) ;;
  (* If no token, redirect to login *)
  if negb (truthy_opt_str token) then
    router_push (js "/login") ;;
    dispatch (Store.SetLoading false) ;;
    mret false
  else
    (* If we have a token but no user data, fetch user profile *)
    proceed ←
      (if truthy_opt_str token && negb (truthy_obj user) then
         r ← getProfile reply ;
         match r with
         | Fulfilled userData =>
             dispatch (Store.Login (default [] token) userData) ;;
             mret true
         | Rejected _ =>
             console_error "Failed to fetch user profile:" ;;
             dispatch Store.Logout ;;
             router_push (js "/login") ;;
             dispatch (Store.SetLoading false) ;;
             mret false
         end
       else mret true) ;
    if proceed : bool then
      (* setIsInitialized(true) *)
      dispatch (Store.SetLoading false) ;;
      mret true
    else mret false.

(** The effect and its dependency list [[token, user, ...]]: it runs
    after the first render and again whenever [token] or [user] differ
    from the render before.  The store's actions and the router are taken
    to be stable.  [None] means the rounds allowed were not enough. *)
Fixpoint runEffects (rounds : nat)
    (reply : Settled UserResponse Http.AxiosError) (g : Mounted)
  : option Mounted :=
  match rounds with
  | O => None
  | S rounds' =>
      let tok := token (store (world g)) in
      let usr := user (store (world g)) in
      let '(initialized, w') := initializeAuth tok usr reply (world g) in
      let g' := {| world := w';
                   isInitialized := isInitialized g || initialized;
                   mountedAt := mountedAt g |} in
      if bool_decide (token (store w') = tok ∧ user (store w') = usr)
      then Some g'
      else runEffects rounds' reply g'
  end.

(** What [ProtectedRoute] returns when it renders. *)
Definition ProtectedRoute (props : ProtectedRouteProps) (g : Mounted) : View :=
  let s := store (world g) in
  (* Show loading state *)
  if negb (isInitialized g) then ViewSpinner
  (* Check authentication *)
  else if negb (isAuthenticated s) || negb (truthy_obj (user s))
  then ViewNull
  (* Check role-based permissions *)
  else if (0 <? length (requiredRole props))%nat
          && negb (existsb (Store.hasRole s) (requiredRole props))
  then (if truthy_node (fallback props) then ViewFallback (fallback props)
        else View403)
  else ViewChildren (children props).

(** A fresh mount: nothing initialised yet. *)
Definition mount (w : World) : Mounted :=
  {| world := w; isInitialized := false; mountedAt := length (events w) |}.

(** What the guard has done since it was mounted. *)
Definition ownEvents (g : Mounted) : list event :=
  drop (mountedAt g) (events (world g)).

(** The states of the guard's state machine. *)
Inductive GuardState : Type :=
| Initializing | Unauthenticated | Forbidden | Authorized.

(** The redirects to the login page a list of events holds. *)
Definition loginRedirects (evs : list event) : list event :=
  List.filter
    (λ e, match e with
          | EvRouterPush p => str_eqb p (js "/login")
          | _ => false
          end) evs.

(** Any redirect: a router push or a hard navigation. *)
Definition isRedirect (e : event) : bool :=
  match e with
  | EvRouterPush _ | EvLocationAssign _ => true
  | _ => false
  end.

(** The state a mounted guard is in, read off what it has done and what
    it renders: it is [Unauthenticated] once it has sent the visitor to
    the login page or renders nothing; otherwise its render decides. *)
Definition guardState (props : ProtectedRouteProps) (g : Mounted)
  : GuardState :=
  match loginRedirects (ownEvents g) with
  | _ :: _ => Unauthenticated
  | [] =>
      match ProtectedRoute props g with
      | ViewSpinner => Initializing
      | ViewNull => Unauthenticated
      | ViewFallback _ | View403 => Forbidden
      | ViewChildren _ => Authorized
      end
  end.

(** The world after the effect found no token. *)
Definition sent_to_login (w : World) : World :=
  {| store := Store.setLoading false (Store.setLoading true (store w));
     window := window w;
     events := events w
               ++ [EvStore (Store.SetLoading true);
                   EvRouterPush (js "/login");
                   EvStore (Store.SetLoading false)] |}.

(** The world after the effect found a token and a cached user. *)
Definition initialized (w : World) : World :=
  {| store := Store.setLoading false (Store.setLoading true (store w));
     window := window w;
     events := events w
               ++ [EvStore (Store.SetLoading true);
                   EvStore (Store.SetLoading false)] |}.

(** [useAuth()]: the session as the current render sees it. *)
Definition useAuth : M AuthState := λ w, (store w, w).

(** [requireAuth] of [useRouteProtection]; [None] is an omitted argument,
    for which the default ["/login"] stands in. *)
Definition requireAuth (redirectPath : option jsstr) : M bool :=
  s ← useAuth ;
  if negb (isAuthenticated s) then
    router_push (default (js "/login") redirectPath) ;;
    mret false
  else mret true.

(** [requireRole] of [useRouteProtection]; the default [redirectPath] is
    ["/"]. *)
Definition requireRole (roles : list jsstr) (redirectPath : option jsstr)
  : M bool :=
  s ← useAuth ;
  if negb (isAuthenticated s) || negb (truthy_obj (user s)) then
    router_push (js "/login") ;;
    mret false
  else if negb (existsb (Store.hasRole s) roles) then
    router_push (default (js "/") redirectPath) ;;
    mret false
  else mret true.

(** The props [AdminOnly] mounts [ProtectedRoute] with. *)
Definition AdminOnly (content : ReactNode) : ProtectedRouteProps :=
  {| children := content; requiredRole := [js "ROLE_ADMIN"];
     fallback := RUndefined |}.

(** The props [EmployeeOnly] mounts [ProtectedRoute] with. *)
Definition EmployeeOnly (content : ReactNode) : ProtectedRouteProps :=
  {| children := content;
     requiredRole := [js "ROLE_EMPLOYEE"; js "ROLE_ADMIN"];
     fallback := RUndefined |}.

(** The props [AuthenticatedOnly] mounts [ProtectedRoute] with. *)
Definition AuthenticatedOnly (content : ReactNode) : ProtectedRouteProps :=
  {| children := content; requiredRole := []; fallback := RUndefined |}.

End Guard.

(* ===================================================================== *)
(** ** Edge middleware ([middleware.ts]) *)
(* ===================================================================== *)

Module Middleware.

(** The responses a middleware can give. *)
Inductive NextResponse : Type :=
| NextResponse_next
| NextResponse_redirect (url : jsstr)
| NextResponse_rewrite (url : jsstr).

Record NextRequest : Type := {
  pathname : jsstr;
}.

Definition middleware (request : NextRequest) : NextResponse :=
  let pathname := pathname request in
  (* Define protected routes *)
  let protectedRoutes :=
    [js "/profile"; js "/admin"; js "/employee"; js "/customer"] in
  let adminRoutes := [js "/admin"] in
  let employeeRoutes := [js "/employee"; js "/admin"] in
  let isProtectedRoute := existsb (startsWith pathname) protectedRoutes in
  let isAdminRoute := existsb (startsWith pathname) adminRoutes in
  let isEmployeeRoute := existsb (startsWith pathname) employeeRoutes in
  if isProtectedRoute
     && (str_eqb pathname (js "/login") || str_eqb pathname (js "/register"))
  then NextResponse_next
  else
    (* Allow public routes *)
    let publicRoutes :=
      [js "/"; js "/login"; js "/register"; js "/about"; js "/contact"] in
    if includes publicRoutes pathname then NextResponse_next
    else
      (* For all other cases, continue to the next middleware or page *)
      NextResponse_next.

End Middleware.

(* ===================================================================== *)
(** ** Navigation bar ([Navigation.tsx]) *)
(* ===================================================================== *)

Module Navigation.

Record NavLink : Type := {
  name : jsstr;
  href : jsstr;
  roles : list jsstr;
}.

(** [user?.role === r] *)
Definition role_is (s : AuthState) (r : jsstr) : bool :=
  match user s with
  | Some u => str_eqb (role_name (role u)) r
  | None => false
  end.

(** [navigationLinks], built from [isAuthenticated] and [user]. *)
Definition navigationLinks (s : AuthState) : list NavLink :=
  {| name := js "Home"; href := js "/"; roles := [] |}
  :: (if isAuthenticated s then
        {| name := js "Profile"; href := js "/profile";
           roles := [js "ROLE_CUSTOMER"; js "ROLE_EMPLOYEE"; js "ROLE_ADMIN"] |}
        :: (if role_is s (js "ROLE_CUSTOMER") then
              [{| name := js "Customer Dashboard"; href := js "/customer";
                  roles := [js "ROLE_CUSTOMER"] |}]
            else [])
        ++ (if role_is s (js "ROLE_EMPLOYEE") || role_is s (js "ROLE_ADMIN")
            then
              [{| name := js "Employee Dashboard"; href := js "/employee";
                  roles := [js "ROLE_EMPLOYEE"; js "ROLE_ADMIN"] |}]
            else [])
        ++ (if role_is s (js "ROLE_ADMIN") then
              [{| name := js "Admin Dashboard"; href := js "/admin";
                  roles := [js "ROLE_ADMIN"] |}]
            else [])
      else []).

(** [user?.role || ""] *)
Definition role_or_empty (s : AuthState) : jsstr :=
  match user s with
  | Some u =>
      if truthy_str (role_name (role u)) then role_name (role u) else js ""
  | None => js ""
  end.

(** [filteredLinks] *)
Definition filteredLinks (s : AuthState) : list NavLink :=
  List.filter
    (λ link,
       (length (roles link) =? 0)%nat
       || negb (isAuthenticated s)
       || includes (roles link) (role_or_empty s))
    (navigationLinks s).

(** [handleLogout] *)
Definition handleLogout : M unit :=
  dispatch Store.Logout ;;
  router_push (js "/login").

End Navigation.

(* ===================================================================== *)
(** ** Registration form ([RegisterForm.tsx]) *)
(* ===================================================================== *)

Module RegisterForm.

(** [keyof typeof formData] *)
Inductive Field : Type :=
| FirstName | LastName | Email | Password | ConfirmPassword.

(** The property name a field is. *)
Definition key (field : Field) : string :=
  match field with
  | FirstName => "firstName"
  | LastName => "lastName"
  | Email => "email"
  | Password => "password"
  | ConfirmPassword => "confirmPassword"
  end.

(** [formData[field]] *)
Definition getField (field : Field) (formData : Forms.RegisterFormData)
  : jsstr :=
  match field with
  | FirstName => Forms.firstName formData
  | LastName => Forms.lastName formData
  | Email => Forms.email formData
  | Password => Forms.password formData
  | ConfirmPassword => Forms.confirmPassword formData
  end.

(** [{ ...prev, [field]: value }] *)
Definition setField (field : Field) (value : jsstr)
    (prev : Forms.RegisterFormData) : Forms.RegisterFormData :=
  {| Forms.firstName :=
       match field with FirstName => value | _ => Forms.firstName prev end;
     Forms.lastName :=
       match field with LastName => value | _ => Forms.lastName prev end;
     Forms.email :=
       match field with Email => value | _ => Forms.email prev end;
     Forms.password :=
       match field with Password => value | _ => Forms.password prev end;
     Forms.confirmPassword :=
       match field with
       | ConfirmPassword => value
       | _ => Forms.confirmPassword prev
       end |}.

(** Truthiness of [errors[k]]: a missing entry and the empty message both
    count as no error. *)
Definition truthy_entry (errors : gmap string string) (k : string) : bool :=
  match errors !! k with
  | Some (String _ _) => true
  | Some EmptyString | None => false
  end.

(** The component's state. *)
Record State : Type := {
  formData : Forms.RegisterFormData;
  errors : gmap string string;
  isSubmitting : bool;
  apiError : Http.JsValue;
  success : bool;
}.

(** [handleInputChange(field)] applied to a change event whose target holds
    [value]. *)
Definition handleInputChange (field : Field) (value : jsstr) (st : State)
  : State :=
  {| formData := setField field value (formData st);
     (* Clear field error when user starts typing *)
     errors := if truthy_entry (errors st) (key field)
               then <[key field := ""%string]> (errors st)
               else errors st;
     isSubmitting := isSubmitting st;
     apiError := apiError st;
     success := success st |}.

(** [RegisterRequest] *)
Record RegisterRequest : Type := {
  firstName : jsstr;
  lastName : jsstr;
  email : jsstr;
  password : jsstr;
}.

(** [AuthResponse] *)
Record AuthResponse : Type := {
  accessToken : jsstr;
}.

(** [authApi.register(data)] through [apiClient]; [reply] is how the
    request settles on the wire. *)
Definition register (data : RegisterRequest)
    (reply : Settled AuthResponse Http.AxiosError)
  : M (Settled AuthResponse Http.AxiosError) :=
  match reply with
  | Fulfilled r => mret (Fulfilled r)
  | Rejected e => Http.responseError e ;; mret (Rejected e)
  end.

(** What a submission leaves behind: the component's state, the request
    handed to [authApi.register] if one was made, and the timer set, as its
    delay in milliseconds and the route it will push. *)
Record Submitted : Type := {
  state : State;
  request : option RegisterRequest;
  timer : option (Z * jsstr);
}.

(** [handleSubmit]. *)
Definition handleSubmit (reply : Settled AuthResponse Http.AxiosError)
    (st : State) : M Submitted :=
  (* setApiError(""); if (!validateForm()) return; *)
  let '(newErrors, valid) := Forms.validateForm (formData st) in
  if negb valid then
    mret {| state := {| formData := formData st; errors := newErrors;
                        isSubmitting := isSubmitting st;
                        apiError := Http.VString (js "");
                        success := success st |};
            request := None; timer := None |}
  else
    (* Extract registration data (without confirmPassword) *)
    let registrationData :=
      {| firstName := Forms.firstName (formData st);
         lastName := Forms.lastName (formData st);
         email := Forms.email (formData st);
         password := Forms.password (formData st) |} in
    r ← register registrationData reply ;
    match r with
    | Fulfilled _ =>
        mret {| state := {| formData := formData st; errors := newErrors;
                            isSubmitting := false;
                            apiError := Http.VString (js "");
                            success := true |};
                request := Some registrationData;
                timer := Some (2000%Z, js "/login") |}
    | Rejected e =>
        console_error "Registration failed:" ;;
        mret {| state := {| formData := formData st; errors := newErrors;
                            isSubmitting := false;
                            apiError := Http.displayed e;
                            success := success st |};
                request := Some registrationData;
                timer := None |}
    end.

End RegisterForm.

(* ===================================================================== *)
(** ** Profile page ([ProfileManager.tsx]) *)
(* ===================================================================== *)

Module ProfileManager.

(** [UpdateProfileRequest] *)
Record UpdateProfileRequest : Type := {
  firstName : jsstr;
  lastName : jsstr;
}.

(** [validateProfile]: the mapping handed to [setProfileErrors] and the
    returned boolean. *)
Definition validateProfile (profileData : UpdateProfileRequest)
  : gmap string string * bool :=
  let errors : gmap string string := ∅ in
  let errors :=
    if negb (truthy_str (trim (firstName profileData))) then
      <["firstName" := "First name is required"]> errors
    else if (length (trim (firstName profileData)) <? 2)%nat then
      <["firstName" := "First name must be at least 2 characters"]> errors
    else errors in
  let errors :=
    if negb (truthy_str (trim (lastName profileData))) then
      <["lastName" := "Last name is required"]> errors
    else if (length (trim (lastName profileData)) <? 2)%nat then
      <["lastName" := "Last name must be at least 2 characters"]> errors
    else errors in
  (errors, bool_decide (size errors = 0%nat)).

(** The state the two submit handlers read and write. *)
Record State : Type := {
  profileData : UpdateProfileRequest;
  passwordData : Forms.ChangePasswordRequest;
  confirmPassword : jsstr;
  profileErrors : gmap string string;
  passwordErrors : gmap string string;
  isUpdatingProfile : bool;
  isChangingPassword : bool;
  profileMessage : Http.JsValue;
  passwordMessage : Http.JsValue;
}.

(** [userApi.updateProfile(data)] through [apiClient]. *)
Definition updateProfile (data : UpdateProfileRequest)
    (reply : Settled UserResponse Http.AxiosError)
  : M (Settled UserResponse Http.AxiosError) :=
  match reply with
  | Fulfilled r => mret (Fulfilled r)
  | Rejected e => Http.responseError e ;; mret (Rejected e)
  end.

(** [userApi.changePassword(data)] through [apiClient]. *)
Definition changePassword (data : Forms.ChangePasswordRequest)
    (reply : Settled unit Http.AxiosError)
  : M (Settled unit Http.AxiosError) :=
  match reply with
  | Fulfilled r => mret (Fulfilled r)
  | Rejected e => Http.responseError e ;; mret (Rejected e)
  end.

(** What [handleApiError] hands to a message setter. *)
Definition displayed (e : Http.AxiosError) : Http.JsValue :=
  Http.displayed e.

(** [handleProfileUpdate]: the state afterwards and the request made, if
    any. *)
Definition handleProfileUpdate (reply : Settled UserResponse Http.AxiosError)
    (st : State) : M (State * option UpdateProfileRequest) :=
  (* setProfileMessage(""); if (!validateProfile()) return; *)
  let '(errors, valid) := validateProfile (profileData st) in
  if negb valid then
    mret ({| profileData := profileData st;
             passwordData := passwordData st;
             confirmPassword := confirmPassword st;
             profileErrors := errors;
             passwordErrors := passwordErrors st;
             isUpdatingProfile := isUpdatingProfile st;
             isChangingPassword := isChangingPassword st;
             profileMessage := Http.VString (js "");
             passwordMessage := passwordMessage st |}, None)
  else
    r ← updateProfile (profileData st) reply ;
    match r with
    | Fulfilled updatedUser =>
        dispatch (Store.UpdateUser updatedUser) ;;
        mret ({| profileData := profileData st;
                 passwordData := passwordData st;
                 confirmPassword := confirmPassword st;
                 profileErrors := errors;
                 passwordErrors := passwordErrors st;
                 isUpdatingProfile := false;
                 isChangingPassword := isChangingPassword st;
                 profileMessage :=
                   Http.VString (js "Profile updated successfully!");
                 passwordMessage := passwordMessage st |},
              Some (profileData st))
    | Rejected e =>
        console_error "Profile update failed:" ;;
        mret ({| profileData := profileData st;
                 passwordData := passwordData st;
                 confirmPassword := confirmPassword st;
                 profileErrors := errors;
                 passwordErrors := passwordErrors st;
                 isUpdatingProfile := false;
                 isChangingPassword := isChangingPassword st;
                 profileMessage := displayed e;
                 passwordMessage := passwordMessage st |},
              Some (profileData st))
    end.

(** [handlePasswordChange]: the state afterwards and the request made, if
    any. *)
Definition handlePasswordChange (reply : Settled unit Http.AxiosError)
    (st : State) : M (State * option Forms.ChangePasswordRequest) :=
  (* setPasswordMessage(""); if (!validatePassword()) return; *)
  let '(errors, valid) :=
    Forms.validatePassword (passwordData st) (confirmPassword st) in
  if negb valid then
    mret ({| profileData := profileData st;
             passwordData := passwordData st;
             confirmPassword := confirmPassword st;
             profileErrors := profileErrors st;
             passwordErrors := errors;
             isUpdatingProfile := isUpdatingProfile st;
             isChangingPassword := isChangingPassword st;
             profileMessage := profileMessage st;
             passwordMessage := Http.VString (js "") |}, None)
  else
    r ← changePassword (passwordData st) reply ;
    match r with
    | Fulfilled _ =>
        mret ({| profileData := profileData st;
                 passwordData :=
                   {| Forms.currentPassword := js "";
                      Forms.newPassword := js "" |};
                 confirmPassword := js "";
                 profileErrors := profileErrors st;
                 passwordErrors := errors;
                 isUpdatingProfile := isUpdatingProfile st;
                 isChangingPassword := false;
                 profileMessage := profileMessage st;
                 passwordMessage :=
                   Http.VString (js "Password changed successfully!") |},
              Some (passwordData st))
    | Rejected e =>
        console_error "Password change failed:" ;;
        mret ({| profileData := profileData st;
                 passwordData := passwordData st;
                 confirmPassword := confirmPassword st;
                 profileErrors := profileErrors st;
                 passwordErrors := errors;
                 isUpdatingProfile := isUpdatingProfile st;
                 isChangingPassword := false;
                 profileMessage := profileMessage st;
                 passwordMessage := displayed e |},
              Some (passwordData st))
    end.

End ProfileManager.

(* ===================================================================== *)
(** ** Booking page: its authentication check *)
(* ===================================================================== *)

Module Booking.

(** What the check does besides setting state. *)
Inductive event : Type :=
| ConsoleLog (userId : Z)       (* [console.log("Current user ID:", user.id)] *)
| RouterPush (path : jsstr).    (* [router.push(path)] *)

(** One run of the "Authentication check" effect over the session that the
    render saw: the new [isCheckingAuth] and what was done. *)
Definition authCheck (s : AuthState) (isCheckingAuth : bool)
  : bool * list event :=
  match user s with
  | Some u =>
      if negb (isLoading s) then
        (false,
         ConsoleLog (id u)
         :: (if negb (isAuthenticated s) then [RouterPush (js "/login")]
             else []))
      else (isCheckingAuth, [])
  | None => (isCheckingAuth, [])
  end.

(** The effect over the renders that follow a render over [prev]: its
    dependency list is [[isAuthenticated, isLoading, router]], so it runs
    again only for a render in which [isAuthenticated] or [isLoading]
    differs from the render before (the router is taken to be stable). *)
Fixpoint authChecksAfter (prev : AuthState) (renders : list AuthState)
    (isCheckingAuth : bool) : bool * list event :=
  match renders with
  | [] => (isCheckingAuth, [])
  | s :: renders' =>
      if bool_decide (isAuthenticated s = isAuthenticated prev
                      ∧ isLoading s = isLoading prev)
      then authChecksAfter s renders' isCheckingAuth
      else
        let '(checking, evs) := authCheck s isCheckingAuth in
        let '(checking', evs') := authChecksAfter s renders' checking in
        (checking', evs ++ evs')
  end.

(** The effect over a series of renders, oldest first, each given by the
    session it saw: it runs after the first render and then as its
    dependencies say. *)
Definition authChecks (renders : list AuthState) (isCheckingAuth : bool)
  : bool * list event :=
  match renders with
  | [] => (isCheckingAuth, [])
  | s :: renders' =>
      let '(checking, evs) := authCheck s isCheckingAuth in
      let '(checking', evs') := authChecksAfter s renders' checking in
      (checking', evs ++ evs')
  end.

(** What the page shows. *)
Inductive View : Type :=
| ViewChecking       (* "Checking authentication..." *)
| ViewRedirecting    (* "Redirecting to login..." *)
| ViewPage.          (* the booking page itself *)

Definition view (s : AuthState) (isCheckingAuth : bool) : View :=
  if isLoading s || isCheckingAuth then ViewChecking
  else if negb (isAuthenticated s) then ViewRedirecting
  else ViewPage.

End Booking.

(* ===================================================================== *)
(** ** The specification's vocabulary *)
(* ===================================================================== *)

Module Spec.

(** [contains(s, class)] *)
Definition contains (p : N → bool) (s : jsstr) : Prop :=
  ∃ c, c ∈ s ∧ p c = true.

Definition lowercase (c : N) : bool := (97 <=? c) && (c <=? 122).
Definition uppercase (c : N) : bool := (65 <=? c) && (c <=? 90).
Definition decimal (c : N) : bool := (48 <=? c) && (c <=? 57).

(** The password strength rule as the specification words it. *)
Definition strong_password (s : jsstr) : Prop :=
  (8 ≤ length s)%nat ∧ contains lowercase s ∧ contains uppercase s
  ∧ contains decimal s.

(** A string on one line: no line terminator in it. *)
Definition single_line (s : jsstr) : Prop :=
  ∀ c, c ∈ s → is_line_terminator c = false.

(** One or more characters, none of them white space. *)
Definition word (s : jsstr) : Prop :=
  s ≠ [] ∧ ∀ c, c ∈ s → is_space c = false.

(** The basic [local@domain.tld] shape. *)
Definition email_shape (s : jsstr) : Prop :=
  ∃ loc dom tld,
    s = loc ++ [64] ++ dom ++ [46] ++ tld ∧ word loc ∧ word dom ∧ word tld.

(** A string with that shape somewhere inside it. *)
Definition contains_email_shape (s : jsstr) : Prop :=
  ∃ before mid after, s = before ++ mid ++ after ∧ email_shape mid.

(** One line of the string holds a lowercase letter, an uppercase letter
    and a digit. *)
Definition line_with_all_three (s : jsstr) : Prop :=
  ∃ before line after,
    s = before ++ line ++ after ∧ single_line line
    ∧ contains lowercase line ∧ contains uppercase line
    ∧ contains decimal line.

End Spec.

(* ===================================================================== *)
(** ** Concrete inputs used in the examples *)
(* ===================================================================== *)

Module Samples.

Definition customer : UserResponse :=
  {| id := 1; firstName := js "Ada"; lastName := js "Lovelace";
     email := js "ada@example.org"; role := ROLE_CUSTOMER;
     enabled := true |}.

(** A session after [login("abc", customer)]. *)
Definition logged_in : AuthState :=
  Store.login (js "abc") customer Store.initial.

(** In the browser, on the profile page. *)
Definition browser_world : World :=
  {| store := logged_in; window := Some (js "/profile"); events := [] |}.

(** During server-side rendering: no [window]. *)
Definition server_world : World :=
  {| store := logged_in; window := None; events := [] |}.

(** A visitor who never logged in. *)
Definition anonymous_world : World :=
  {| store := Store.initial; window := Some (js "/profile"); events := [] |}.

Definition unauthorized : Http.AxiosError :=
  {| Http.response :=
       Some {| Http.status := 401; Http.data := Http.VString (js "Unauthorized") |};
     Http.message := js "Request failed with status code 401" |}.

Definition forbidden : Http.AxiosError :=
  {| Http.response :=
       Some {| Http.status := 403; Http.data := Http.VString (js "Forbidden") |};
     Http.message := js "Request failed with status code 403" |}.

(** No response arrived. *)
Definition network_error : Http.AxiosError :=
  {| Http.response := None; Http.message := js "Network Error" |}.

(** The admin dashboard behind a guard with a custom forbidden view. *)
Definition admin_page : Guard.ProtectedRouteProps :=
  {| Guard.children := Guard.RElement "AdminDashboardContent";
     Guard.requiredRole := [js "ROLE_ADMIN"];
     Guard.fallback := Guard.RElement "AccessDenied" |}.

(** The same without the [fallback] prop, as [AdminOnly] mounts it. *)
Definition admin_only : Guard.ProtectedRouteProps :=
  {| Guard.children := Guard.RElement "AdminDashboardContent";
     Guard.requiredRole := [js "ROLE_ADMIN"];
     Guard.fallback := Guard.RUndefined |}.

(** The profile request, should the guard make it, succeeds. *)
Definition profile_reply : Settled UserResponse Http.AxiosError :=
  Fulfilled customer.

(** The form used in the examples: everything valid but, possibly, the
    email and the password. *)
Definition sample_form (e pw : jsstr) : Forms.RegisterFormData :=
  {| Forms.firstName := js "Ada"; Forms.lastName := js "Lovelace";
     Forms.email := e; Forms.password := pw; Forms.confirmPassword := pw |}.

(** A password whose lowercase letters are separated from its uppercase
    letter and digit by U+2028 LINE SEPARATOR. *)
Definition two_line_password : jsstr := js "aaaaaaa" ++ [8232] ++ js "A1".

(** A password change that keeps the (strong) current password. *)
Definition reused_password : Forms.ChangePasswordRequest :=
  {| Forms.currentPassword := js "Abcdefg1";
     Forms.newPassword := js "Abcdefg1" |}.

(** A session rehydrated with a token and no user record. *)
Definition token_only_world : World :=
  {| store := {| token := Some (js "abc"); user := None;
                 isLoading := false; isAuthenticated := false |};
     window := Some (js "/customer"); events := [] |}.

(** A guard that asks for no particular role, as [AuthenticatedOnly]
    mounts it. *)
Definition authenticated_only : Guard.ProtectedRouteProps :=
  {| Guard.children := Guard.RElement "CustomerDashboard";
     Guard.requiredRole := [];
     Guard.fallback := Guard.RUndefined |}.

(** [GET /api/v1/users/me] as [userApi.getProfile] configures it. *)
Definition get_profile : Http.RequestConfig :=
  {| Http.url := js "/api/v1/users/me"; Http.method := "get";
     Http.headers := {[ "Content-Type"%string := js "application/json" ]} |}.

(** A guard that has finished initialising over the logged-in customer. *)
Definition customer_at_home : Guard.Mounted :=
  {| Guard.world := browser_world; Guard.isInitialized := true;
     Guard.mountedAt := 0 |}.

(** A registration with nothing but white space for names: three spaces,
    and a tab followed by a no-break space. *)
Definition blank_names : Forms.RegisterFormData :=
  {| Forms.firstName := js "   "; Forms.lastName := [9; 160];
     Forms.email := js "ada@example.org"; Forms.password := js "Abcdefg1";
     Forms.confirmPassword := js "Abcdefg1" |}.

(** The record the server answers a profile update with. *)
Definition renamed_customer : UserResponse :=
  {| id := 1; firstName := js "Augusta"; lastName := js "King";
     email := js "ada@example.org"; role := ROLE_CUSTOMER;
     enabled := true |}.

(** The profile page with new names typed in. *)
Definition profile_form : ProfileManager.State :=
  {| ProfileManager.profileData :=
       {| ProfileManager.firstName := js "Augusta";
          ProfileManager.lastName := js "King" |};
     ProfileManager.passwordData :=
       {| Forms.currentPassword := js ""; Forms.newPassword := js "" |};
     ProfileManager.confirmPassword := js "";
     ProfileManager.profileErrors := ∅;
     ProfileManager.passwordErrors := ∅;
     ProfileManager.isUpdatingProfile := false;
     ProfileManager.isChangingPassword := false;
     ProfileManager.profileMessage := Http.VString (js "");
     ProfileManager.passwordMessage := Http.VString (js "") |}.

(** The same page with a one-letter first name. *)
Definition short_name_form : ProfileManager.State :=
  {| ProfileManager.profileData :=
       {| ProfileManager.firstName := js " A ";
          ProfileManager.lastName := js "King" |};
     ProfileManager.passwordData :=
       {| Forms.currentPassword := js ""; Forms.newPassword := js "" |};
     ProfileManager.confirmPassword := js "";
     ProfileManager.profileErrors := ∅;
     ProfileManager.passwordErrors := ∅;
     ProfileManager.isUpdatingProfile := false;
     ProfileManager.isChangingPassword := false;
     ProfileManager.profileMessage := Http.VString (js "");
     ProfileManager.passwordMessage := Http.VString (js "") |}.

(** The session after [updateUser] on the empty store: a user record and
    no token. *)
Definition user_without_token : AuthState :=
  Store.updateUser customer Store.initial.






(** A session with a token and a user that is not marked authenticated:
    the rehydrated token, then [updateUser]. *)
Definition unmarked_world : World :=
  {| store := Store.updateUser customer (store token_only_world);
     window := Some (js "/customer"); events := [] |}.

(** A session logged in with the empty string for a token. *)
Definition empty_token_world : World :=
  {| store := Store.login (js "") customer Store.initial;
     window := Some (js "/customer"); events := [] |}.

End Samples.

(** Reads a key of an error mapping built by a chain of conditional
    assignments. *)
Ltac lookup_through :=
  repeat first
    [ rewrite lookup_insert_eq
    | rewrite lookup_insert_ne by done
    | rewrite lookup_empty
    | match goal with
      | |- context [ (if ?b then _ else _) !! _ ] => destruct b eqn:?
      end ].

(** Decides a closed proposition by evaluation. *)
Ltac by_evaluation := apply (bool_decide_unpack _); vm_compute; exact I.

(** Runs a computation in the world, one monadic step after the other. *)
Ltac run_world :=
  cbv [Http.responseError Guard.getProfile Guard.initializeAuth
       when dispatch emit console_error router_push window_defined
       location_assign mbind mret M_bind M_ret];
  cbn.

(* ===================================================================== *)
(** ** Properties of the matcher *)
(* ===================================================================== *)

Section Matcher.

Implicit Types (p : N → bool) (s u : jsstr) (r a b : regex).

Lemma rmatch_Class p s s' :
  s' ∈ rmatch (Class p) s ↔ ∃ c, s = c :: s' ∧ p c = true.
Proof.
  simpl. destruct s as [|c t].
  - rewrite elem_of_nil. split; [done | intros (c & ? & _); done].
  - destruct (p c) eqn:Hp.
    + rewrite list_elem_of_singleton. split.
      * intros ->. eauto.
      * intros (c' & [= -> ->] & _). done.
    + rewrite elem_of_nil. split; [done |].
      intros (c' & [= -> ->] & Hc). congruence.
Qed.

(** Repeating a class strips a run of characters of that class. *)
Lemma iterate_Class p fuel s s' :
  (length s ≤ fuel)%nat →
  s' ∈ iterate (rmatch (Class p)) fuel s
  ↔ ∃ run, s = run ++ s' ∧ forallb p run = true.
Proof.
  revert s. induction fuel as [|fuel IH]; intros s Hlen.
  - destruct s; [|simpl in Hlen; lia].
    simpl. rewrite list_elem_of_singleton. split.
    + intros ->. by exists [].
    + intros (run & Heq & _). symmetry in Heq.
      by apply app_eq_nil in Heq as [_ ->].
  - cbn [iterate]. rewrite elem_of_cons, list_elem_of_bind. split.
    + intros [-> | (s1 & Hin & Hs1)]; [by exists [] |].
      apply list_elem_of_In, filter_In in Hs1 as [Hs1 Hlt].
      apply list_elem_of_In, rmatch_Class in Hs1 as (c & -> & Hc).
      apply IH in Hin as (run & -> & Hrun); [|simpl in Hlen; lia].
      exists (c :: run). simpl. by rewrite Hc, Hrun.
    + intros (run & -> & Hrun). destruct run as [|c run]; [by left |].
      right. simpl in Hrun. apply andb_true_iff in Hrun as [Hc Hrun].
      exists (run ++ s'). split.
      * apply IH; [simpl in Hlen; lia | eauto].
      * apply list_elem_of_In, filter_In. split.
        -- apply list_elem_of_In, rmatch_Class. eauto.
        -- apply Nat.ltb_lt. simpl. lia.
Qed.

Lemma rmatch_Star_Class p s s' :
  s' ∈ rmatch (Star (Class p)) s
  ↔ ∃ run, s = run ++ s' ∧ forallb p run = true.
Proof. apply iterate_Class. done. Qed.

Lemma rmatch_Plus_Class p s s' :
  s' ∈ rmatch (Plus (Class p)) s
  ↔ ∃ run, run ≠ [] ∧ s = run ++ s' ∧ forallb p run = true.
Proof.
  cbn [rmatch]. rewrite list_elem_of_bind. split.
  - intros (s1 & Hin & Hs1).
    apply rmatch_Class in Hs1 as (c & -> & Hc).
    apply iterate_Class in Hin as (run & -> & Hrun); [|done].
    exists (c :: run). simpl. by rewrite Hc, Hrun.
  - intros (run & Hne & -> & Hrun). destruct run as [|c run]; [done |].
    simpl in Hrun. apply andb_true_iff in Hrun as [Hc Hrun].
    exists (run ++ s'). split.
    + apply iterate_Class; eauto.
    + apply rmatch_Class. eauto.
Qed.

Lemma rmatch_Seq a b s s' :
  s' ∈ rmatch (Seq a b) s ↔ ∃ s1, s1 ∈ rmatch a s ∧ s' ∈ rmatch b s1.
Proof.
  cbn [rmatch]. rewrite list_elem_of_bind. split.
  - intros (s1 & ? & ?). eauto.
  - intros (s1 & ? & ?). eauto.
Qed.

Lemma matches_at_spec r s :
  matches_at r s = true ↔ ∃ s', s' ∈ rmatch r s.
Proof.
  unfold matches_at. destruct (rmatch r s) as [|x l].
  - split; [done |]. intros (s' & Hs'). by apply elem_of_nil in Hs'.
  - split; [|done]. intros _. exists x. by left.
Qed.

Lemma rmatch_LookAhead r s s' :
  s' ∈ rmatch (LookAhead r) s ↔ s' = s ∧ matches_at r s = true.
Proof.
  cbn [rmatch]. unfold matches_at. destruct (rmatch r s).
  - rewrite elem_of_nil. split; [done | intros [_ ?]; done].
  - rewrite list_elem_of_singleton. split; [done | by intros [? _]].
Qed.

Lemma elem_of_suffixes s u : u ∈ suffixes s ↔ ∃ pre, s = pre ++ u.
Proof.
  induction s as [|c s IH]; simpl.
  - rewrite list_elem_of_singleton. split.
    + intros ->. by exists [].
    + intros (pre & Heq). symmetry in Heq.
      by apply app_eq_nil in Heq as [_ ->].
  - rewrite elem_of_cons, IH. split.
    + intros [-> | (pre & ->)]; [by exists [] | by exists (c :: pre)].
    + intros ([|c' pre] & Heq); simplify_eq/=; eauto.
Qed.

(** [test] finds a match at some position of the string. *)
Lemma test_spec r s :
  test r s = true ↔ ∃ pre u, s = pre ++ u ∧ matches_at r u = true.
Proof.
  unfold test. rewrite existsb_exists. split.
  - intros (u & Hin & Hm).
    apply list_elem_of_In, elem_of_suffixes in Hin as (pre & ->). eauto.
  - intros (pre & u & -> & Hm). exists u. split; [|done].
    apply list_elem_of_In, elem_of_suffixes. eauto.
Qed.

Lemma forallb_not p (l : jsstr) :
  forallb (λ c, negb (p c)) l = true ↔ ∀ c, c ∈ l → p c = false.
Proof.
  rewrite forallb_forall. split; intros H c Hc.
  - apply list_elem_of_In, H in Hc. by destruct (p c).
  - apply list_elem_of_In, H in Hc. by rewrite Hc.
Qed.

(** [.*X] for a class [X]: an [X] later on the same line. *)
Lemma matches_at_dots_then p u :
  matches_at (Seq (Star dot) (Class p)) u = true
  ↔ ∃ run c rest, u = run ++ c :: rest
      ∧ (∀ x, x ∈ run → is_line_terminator x = false) ∧ p c = true.
Proof.
  rewrite matches_at_spec. split.
  - intros (rest & Hm). apply rmatch_Seq in Hm as (s1 & H1 & H2).
    apply rmatch_Star_Class in H1 as (run & -> & Hrun).
    apply rmatch_Class in H2 as (c & -> & Hc).
    exists run, c, rest. by rewrite <- forallb_not.
  - intros (run & c & rest & -> & Hrun & Hc). exists rest.
    apply rmatch_Seq. exists (c :: rest). split.
    + apply rmatch_Star_Class. exists run. by rewrite forallb_not.
    + apply rmatch_Class. eauto.
Qed.

Lemma matches_at_password_re u :
  matches_at password_re u = true
  ↔ matches_at (Seq (Star dot) (range 97 122)) u = true
    ∧ matches_at (Seq (Star dot) (range 65 90)) u = true
    ∧ matches_at (Seq (Star dot) digit) u = true.
Proof.
  rewrite (matches_at_spec password_re). unfold password_re. split.
  - intros (rest & Hm).
    apply rmatch_Seq in Hm as (s1 & H1 & Hm).
    apply rmatch_Seq in Hm as (s2 & H2 & H3).
    apply rmatch_LookAhead in H1 as [-> H1].
    apply rmatch_LookAhead in H2 as [-> H2].
    apply rmatch_LookAhead in H3 as [-> H3]. done.
  - intros (H1 & H2 & H3). exists u.
    apply rmatch_Seq. exists u. split; [by apply rmatch_LookAhead |].
    apply rmatch_Seq. exists u. split; by apply rmatch_LookAhead.
Qed.

(** On a single line the password pattern asks for the three kinds of
    character and nothing more. *)
Lemma test_password_re_single_line s :
  Spec.single_line s →
  test password_re s = true
  ↔ Spec.contains Spec.lowercase s ∧ Spec.contains Spec.uppercase s
    ∧ Spec.contains Spec.decimal s.
Proof.
  intros Hline. rewrite test_spec. split.
  - intros (pre & u & -> & Hm).
    apply matches_at_password_re in Hm as (H1 & H2 & H3).
    apply matches_at_dots_then in H1 as (r1 & c1 & t1 & -> & _ & Hc1).
    apply matches_at_dots_then in H2 as (r2 & c2 & t2 & E2 & _ & Hc2).
    apply matches_at_dots_then in H3 as (r3 & c3 & t3 & E3 & _ & Hc3).
    repeat split.
    + exists c1. split; [|done]. rewrite !elem_of_app, elem_of_cons. auto.
    + exists c2. split; [|done]. rewrite E2.
      rewrite !elem_of_app, elem_of_cons. auto.
    + exists c3. split; [|done]. rewrite E3.
      rewrite !elem_of_app, elem_of_cons. auto.
  - intros (H1 & H2 & H3). exists [], s. split; [done |].
    assert (Hfind : ∀ p, Spec.contains p s →
              matches_at (Seq (Star dot) (Class p)) s = true).
    { intros p (c & Hin & Hc). apply matches_at_dots_then.
      apply list_elem_of_split in Hin as (run & rest & ->).
      exists run, c, rest. repeat split; [|done].
      intros x Hx. apply Hline. rewrite elem_of_app. auto. }
    apply matches_at_password_re. repeat split; by apply Hfind.
Qed.

Lemma word_forallb (l : jsstr) :
  Spec.word l ↔ l ≠ [] ∧ forallb (λ c, negb (is_space c)) l = true.
Proof. unfold Spec.word. by rewrite forallb_not. Qed.

(** The email pattern at a given position. *)
Lemma matches_at_email_re u :
  matches_at email_re u = true
  ↔ ∃ mid rest, u = mid ++ rest ∧ Spec.email_shape mid.
Proof.
  rewrite matches_at_spec. unfold email_re, nonspace, lit. split.
  - intros (rest & Hm).
    apply rmatch_Seq in Hm as (s1 & H1 & Hm).
    apply rmatch_Seq in Hm as (s2 & H2 & Hm).
    apply rmatch_Seq in Hm as (s3 & H3 & Hm).
    apply rmatch_Seq in Hm as (s4 & H4 & H5).
    apply rmatch_Plus_Class in H1 as (loc & Hloc & -> & Hl).
    apply rmatch_Class in H2 as (c2 & -> & Hc2).
    apply rmatch_Plus_Class in H3 as (dom & Hdom & -> & Hd).
    apply rmatch_Class in H4 as (c4 & -> & Hc4).
    apply rmatch_Plus_Class in H5 as (tld & Htld & -> & Ht).
    apply N.eqb_eq in Hc2 as <-. apply N.eqb_eq in Hc4 as <-.
    exists (loc ++ [64] ++ dom ++ [46] ++ tld), rest. split.
    + by rewrite <- !app_assoc.
    + exists loc, dom, tld. by rewrite !word_forallb.
  - intros (mid & rest & -> & loc & dom & tld & -> & Hl & Hd & Ht).
    apply word_forallb in Hl as [? ?], Hd as [? ?], Ht as [? ?].
    exists rest.
    apply rmatch_Seq. exists ([64] ++ dom ++ [46] ++ tld ++ rest). split.
    { apply rmatch_Plus_Class. exists loc. by rewrite <- !app_assoc. }
    apply rmatch_Seq. exists (dom ++ [46] ++ tld ++ rest). split.
    { apply rmatch_Class. exists 64. by rewrite N.eqb_refl. }
    apply rmatch_Seq. exists ([46] ++ tld ++ rest). split.
    { apply rmatch_Plus_Class. exists dom. done. }
    apply rmatch_Seq. exists (tld ++ rest). split.
    { apply rmatch_Class. exists 46. by rewrite N.eqb_refl. }
    apply rmatch_Plus_Class. exists tld. done.
Qed.

(** Without anchors, [test] accepts the shape anywhere in the string. *)
Lemma test_email_re s :
  test email_re s = true ↔ Spec.contains_email_shape s.
Proof.
  rewrite test_spec. unfold Spec.contains_email_shape. split.
  - intros (pre & u & -> & Hm).
    apply matches_at_email_re in Hm as (mid & rest & -> & Hshape). eauto.
  - intros (pre & mid & rest & -> & Hshape).
    exists pre, (mid ++ rest). split; [done |].
    apply matches_at_email_re. eauto.
Qed.

End Matcher.

Example email_re_plain : test email_re (js "ada@example.org") = true.
Proof. reflexivity. Qed.

Example email_re_no_dot : test email_re (js "ada@example") = false.
Proof. reflexivity. Qed.

Example email_re_space_in_domain : test email_re (js "ada@ example.org") = false.
Proof. reflexivity. Qed.

Example password_re_all_three : test password_re (js "Abcdefg1") = true.
Proof. reflexivity. Qed.

Example password_re_no_digit : test password_re (js "Abcdefgh") = false.
Proof. reflexivity. Qed.

(* ===================================================================== *)
(** ** Properties of the validators *)
(* ===================================================================== *)

Section Validators.

Implicit Types (f : Forms.RegisterFormData) (s : jsstr).

Lemma truthy_str_true s : truthy_str s = true ↔ s ≠ [].
Proof. destruct s; simpl; split; done. Qed.

(** The email paragraph of [validateForm] on its own. *)
Lemma validateForm_email f :
  (Forms.validateForm f).1 !! "email"%string = None
  ↔ truthy_str (Forms.email f) = true ∧ test email_re (Forms.email f) = true.
Proof.
  unfold Forms.validateForm. cbn [fst].
  destruct (truthy_str (Forms.email f)), (test email_re (Forms.email f));
    cbn [negb]; lookup_through; split; (done || (intros [? ?]; done)).
Qed.

(** The password paragraph of [validateForm] on its own. *)
Lemma validateForm_password f :
  (Forms.validateForm f).1 !! "password"%string = None
  ↔ truthy_str (Forms.password f) = true
    ∧ (8 ≤ length (Forms.password f))%nat
    ∧ test password_re (Forms.password f) = true.
Proof.
  unfold Forms.validateForm. cbn [fst].
  destruct (truthy_str (Forms.password f)),
    (Nat.ltb_spec (length (Forms.password f)) 8),
    (test password_re (Forms.password f));
    cbn [negb]; lookup_through; split;
    (done || lia || (intros (? & ? & ?); (done || lia))).
Qed.

(** On single-line passwords [validateForm] enforces the strength rule
    exactly. *)
Lemma validateForm_password_single_line f :
  Spec.single_line (Forms.password f) →
  (Forms.validateForm f).1 !! "password"%string = None
  ↔ Spec.strong_password (Forms.password f).
Proof.
  intros Hline. rewrite validateForm_password.
  rewrite (test_password_re_single_line _ Hline), truthy_str_true.
  unfold Spec.strong_password. split.
  - intros (_ & ? & ?). done.
  - intros (Hlen & ?). split; [|done].
    intros E. rewrite E in Hlen. simpl in Hlen. lia.
Qed.

(** The new-password entry of [validatePassword] when the new password
    differs from the current one. *)
Lemma validatePassword_newPassword pd confirm :
  Forms.currentPassword pd ≠ Forms.newPassword pd →
  (Forms.validatePassword pd confirm).1 !! "newPassword"%string = None
  ↔ truthy_str (Forms.newPassword pd) = true
    ∧ (8 ≤ length (Forms.newPassword pd))%nat
    ∧ test password_re (Forms.newPassword pd) = true.
Proof.
  intros Hne. unfold Forms.validatePassword, str_eqb. cbn [fst].
  rewrite (bool_decide_eq_false_2 _ Hne).
  destruct (truthy_str (Forms.newPassword pd)),
    (Nat.ltb_spec (length (Forms.newPassword pd)) 8),
    (test password_re (Forms.newPassword pd));
    cbn [negb]; lookup_through; split;
    (done || lia || (intros (? & ? & ?); (done || lia))).
Qed.

(** A word has no white space, and neither have [@] and [.]. *)
Lemma email_shape_no_space s c :
  Spec.email_shape s → c ∈ s → is_space c = false.
Proof.
  intros (loc & dom & tld & -> & [_ Hl] & [_ Hd] & [_ Ht]).
  rewrite !elem_of_app, !list_elem_of_singleton.
  intros [?|[->|[?|[->|?]]]]; auto.
Qed.

End Validators.

(** C5 (the code departs from the rule).  The password
    ["aaaaaaa\u2028A1"] has ten characters, a lowercase letter, an
    uppercase letter and a digit, and both validators report the
    "must contain" error for it: the dot of the pattern does not cross the
    line separator, so no position sees all three kinds of character. *)
Theorem password_strength_rejects_two_line_password :
  Spec.strong_password Samples.two_line_password
  ∧ (Forms.validateForm (Samples.sample_form (js "ada@example.org") Samples.two_line_password)).1
      !! "password"%string
    = Some "Password must contain at least one uppercase letter, one lowercase letter, and one number"%string
  ∧ (Forms.validatePassword
       {| Forms.currentPassword := js "Old-pass1";
          Forms.newPassword := Samples.two_line_password |} Samples.two_line_password).1
      !! "newPassword"%string
    = Some "Password must contain at least one uppercase letter, one lowercase letter, and one number"%string.
Proof.
  split; [|split; vm_compute; reflexivity].
  unfold Spec.strong_password, Spec.contains. split; [vm_compute; lia |].
  repeat split.
  - exists 97. split; [|reflexivity]. vm_compute. apply list_elem_of_here.
  - exists 65. split; [|reflexivity]. vm_compute.
    do 8 apply list_elem_of_further. apply list_elem_of_here.
  - exists 49. split; [|reflexivity]. vm_compute.
    do 9 apply list_elem_of_further. apply list_elem_of_here.
Qed.

(** C6.  In [validatePassword]: a confirmation that differs from the new
    password always yields a [confirmPassword] entry; a new password equal
    to the current one always yields a [newPassword] entry, whatever its
    strength; and the validator returns [true] exactly when the mapping is
    empty. *)
Theorem validatePassword_mismatch_and_reuse
    (pd : Forms.ChangePasswordRequest) (confirm : jsstr) :
  (Forms.newPassword pd ≠ confirm →
   is_Some ((Forms.validatePassword pd confirm).1 !! "confirmPassword"%string))
  ∧ (Forms.currentPassword pd = Forms.newPassword pd →
     (Forms.validatePassword pd confirm).1 !! "newPassword"%string
     = Some "New password must be different from current password"%string)
  ∧ ((Forms.validatePassword pd confirm).2 = true
     ↔ (Forms.validatePassword pd confirm).1 = ∅).
Proof.
  split; [|split].
  - intros Hne. unfold Forms.validatePassword, str_eqb. cbn [fst].
    rewrite (bool_decide_eq_false_2 _ Hne). cbn [negb].
    lookup_through; eauto.
  - intros Heq. unfold Forms.validatePassword, str_eqb. cbn [fst].
    rewrite (bool_decide_eq_true_2 _ Heq). by rewrite lookup_insert_eq.
  - unfold Forms.validatePassword. cbn [fst snd].
    rewrite bool_decide_eq_true. apply map_size_empty_iff.
Qed.

(** Witness for C6: current and new password both ["Abcdefg1"] (a strong
    one), confirmation ["Abcdefg2"]. *)
Lemma validatePassword_mismatch_and_reuse_witness :
  is_Some ((Forms.validatePassword Samples.reused_password (js "Abcdefg2")).1
             !! "confirmPassword"%string)
  ∧ (Forms.validatePassword Samples.reused_password (js "Abcdefg2")).1
      !! "newPassword"%string
    = Some "New password must be different from current password"%string.
Proof.
  destruct (validatePassword_mismatch_and_reuse Samples.reused_password
              (js "Abcdefg2"))
    as (Hconfirm & Hnew & _).
  split.
  - apply Hconfirm. vm_compute. discriminate.
  - apply Hnew. reflexivity.
Defined.

(** C9 as stated fails: ["x a@b.c y"] is not of the [local@domain.tld]
    shape (it has spaces in it), yet [validateForm] records no email error
    for it. *)
Lemma validateForm_email_accepts_embedded_shape :
  (Forms.validateForm (Samples.sample_form (js "x a@b.c y") (js "Abcdefg1"))).1
    !! "email"%string = None
  ∧ ¬ (js "x a@b.c y" ≠ [] ∧ Spec.email_shape (js "x a@b.c y")).
Proof.
  split; [vm_compute; reflexivity |].
  intros [_ Hshape].
  assert (Hsp : is_space 32 = false).
  { apply (email_shape_no_space _ _ Hshape). vm_compute.
    apply list_elem_of_further, list_elem_of_here. }
  vm_compute in Hsp. discriminate.
Qed.

(** C9, amended.  [validateForm] records no email error exactly when the
    email is non-empty and has the [local@domain.tld] shape somewhere
    inside it: the pattern is not anchored, so what surrounds the shape is
    not looked at. *)
Theorem validateForm_email_accepts_iff_contains_shape
    (f : Forms.RegisterFormData) :
  (Forms.validateForm f).1 !! "email"%string = None
  ↔ Forms.email f ≠ [] ∧ Spec.contains_email_shape (Forms.email f).
Proof.
  rewrite validateForm_email, truthy_str_true, test_email_re. done.
Qed.


(* ===================================================================== *)
(** ** Properties of the session store *)
(* ===================================================================== *)

Section Session.

Implicit Types (s : AuthState) (a : Store.action).

Lemma session_inv_initial : Store.session_inv Store.initial.
Proof. split; [done | intros H; by destruct H]. Qed.

Lemma session_inv_apply a s :
  Store.session_inv s → Store.session_inv (Store.apply a s).
Proof.
  intros [Hmark Huser]. destruct a; simpl; split; simpl; done.
Qed.

Lemma session_inv_observe acts s :
  Store.session_inv s → Forall Store.session_inv (Store.observe acts s).
Proof.
  revert s. induction acts as [|a acts IH]; intros s Hs; simpl.
  - by constructor.
  - constructor; [done |]. apply IH. by apply session_inv_apply.
Qed.

Lemma session_inv_derived s :
  Store.session_inv s → isAuthenticated s = Store.derived_isAuthenticated s.
Proof.
  intros [Hmark Huser]. unfold Store.derived_isAuthenticated.
  rewrite Hmark. destruct (token s) as [t|].
  - rewrite bool_decide_eq_true_2 by done.
    rewrite bool_decide_eq_true_2; [done | by apply Huser].
  - by rewrite bool_decide_eq_false_2 by (intros H; by apply H).
Qed.

End Session.

(** C1.  Starting from the empty session, every state observable between
    the calls of any sequence of [login], [logout], [updateUser] (and
    [setLoading]) calls has [isAuthenticated] equal to "token is non-null
    and user is non-null"; so it is never [true] while either is null. *)
Theorem session_invariant (acts : list Store.action) :
  Forall (λ s, isAuthenticated s = Store.derived_isAuthenticated s
               ∧ (isAuthenticated s = true →
                  token s ≠ None ∧ user s ≠ None))
    (Store.observe acts Store.initial).
Proof.
  eapply Forall_impl; [apply session_inv_observe, session_inv_initial |].
  intros s Hs. pose proof (session_inv_derived s Hs) as Hd.
  split; [done |]. rewrite Hd. unfold Store.derived_isAuthenticated.
  intros [H1 H2]%andb_true_iff.
  by apply bool_decide_eq_true in H1, H2.
Qed.

(* ===================================================================== *)
(** ** Properties of the HTTP client wrapper *)
(* ===================================================================== *)

(** C2 as stated fails: where [window] is undefined (server-side
    rendering) a 401 clears the session and rejects, but nothing
    navigates. *)
Lemma responseError_401_without_window :
  Http.response_status_is Samples.unauthorized 401 = true
  ∧ Forall (λ e, Guard.isRedirect e = false)
      (events (Http.responseError Samples.unauthorized Samples.server_world).2)
  ∧ window (Http.responseError Samples.unauthorized Samples.server_world).2
    = None.
Proof. vm_compute. repeat split. repeat constructor. Qed.

(** C2, amended.  On a response with status 401 the interceptor calls the
    store's [logout] (leaving token and user null), then, where [window]
    exists, assigns ["/login"] to [window.location.href], and in every case
    rejects with the same error.  Nothing else happens. *)
Theorem responseError_401 (error : Http.AxiosError) (w : World) :
  Http.response_status_is error 401 = true →
  (Http.responseError error w).1 = Rejected error
  ∧ token (store (Http.responseError error w).2) = None
  ∧ user (store (Http.responseError error w).2) = None
  ∧ events (Http.responseError error w).2
    = events w ++ EvStore Store.Logout
        :: match window w with
           | Some _ => [EvLocationAssign (js "/login")]
           | None => []
           end
  ∧ window (Http.responseError error w).2
    = match window w with
      | Some _ => Some (js "/login")
      | None => None
      end.
Proof.
  unfold Http.response_status_is. intros H.
  destruct error as [[[st d]|] msg]; [|done]. simpl in H.
  apply Z.eqb_eq in H as ->.
  destruct w as [s [href|] evs]; run_world.
  all: rewrite <- ?app_assoc; repeat split.
Qed.

(** Witness for C2: a 401 received in the browser. *)
Lemma responseError_401_witness :
  (Http.responseError Samples.unauthorized Samples.browser_world).1
  = Rejected Samples.unauthorized
  ∧ token (store (Http.responseError Samples.unauthorized
                    Samples.browser_world).2) = None
  ∧ user (store (Http.responseError Samples.unauthorized
                   Samples.browser_world).2) = None
  ∧ events (Http.responseError Samples.unauthorized Samples.browser_world).2
    = [EvStore Store.Logout; EvLocationAssign (js "/login")]
  ∧ window (Http.responseError Samples.unauthorized Samples.browser_world).2
    = Some (js "/login").
Proof.
  apply (responseError_401 Samples.unauthorized Samples.browser_world).
  reflexivity.
Defined.

(** C3.  On a response with status 403 the interceptor leaves the session
    store (and the location) as they are, calls no store action, and
    rejects with the very error it was given; all it does is log to the
    console. *)
Theorem responseError_403 (error : Http.AxiosError) (w : World) :
  Http.response_status_is error 403 = true →
  (Http.responseError error w).1 = Rejected error
  ∧ store (Http.responseError error w).2 = store w
  ∧ window (Http.responseError error w).2 = window w
  ∧ events (Http.responseError error w).2
    = events w
        ++ [EvConsoleError "Access forbidden: Insufficient permissions"].
Proof.
  unfold Http.response_status_is. intros H.
  destruct error as [[[st d]|] msg]; [|done]. simpl in H.
  apply Z.eqb_eq in H as ->.
  destruct w as [s href evs]; run_world. repeat split.
Qed.

(** Witness for C3: a 403 received by a logged-in user. *)
Lemma responseError_403_witness :
  (Http.responseError Samples.forbidden Samples.browser_world).1
  = Rejected Samples.forbidden
  ∧ store (Http.responseError Samples.forbidden Samples.browser_world).2
    = Samples.logged_in
  ∧ window (Http.responseError Samples.forbidden Samples.browser_world).2
    = Some (js "/profile")
  ∧ events (Http.responseError Samples.forbidden Samples.browser_world).2
    = [EvConsoleError "Access forbidden: Insufficient permissions"].
Proof.
  apply (responseError_403 Samples.forbidden Samples.browser_world).
  reflexivity.
Defined.

Section ErrorValues.

Implicit Types (v : Http.JsValue) (error : Http.Unknown).

(** On plain data [axios.isAxiosError] reads nothing that can throw. *)
Lemma isAxiosError_plain v :
  Http.isAxiosError (Http.Plain v)
  = Http.Normal
      match v with
      | Http.VObject fields =>
          match Http.get_field "isAxiosError" fields with
          | Http.VBool true => true
          | _ => false
          end
      | _ => false
      end.
Proof.
  by destruct v.
Qed.

(** [handleApiError] on plain data, in closed form. *)
Lemma handleApiError_plain v :
  Http.handleApiError (Http.Plain v)
  = Http.Normal
      (Http.Plain
         match v with
         | Http.VObject fields =>
             match Http.get_field "isAxiosError" fields with
             | Http.VBool true =>
                 let body :=
                   match Http.get_field "response" fields with
                   | Http.VObject r => Http.get_field "data" r
                   | _ => Http.VUndefined
                   end in
                 if Http.truthy body then body
                 else Http.get_field "message" fields
             | _ =>
                 Http.VString
                   (js "An unexpected error occurred. Please try again.")
             end
         | _ =>
             Http.VString
               (js "An unexpected error occurred. Please try again.")
         end).
Proof.
  unfold Http.handleApiError. rewrite isAxiosError_plain.
  destruct v as [| | | | |fields]; try reflexivity.
  destruct (Http.get_field "isAxiosError" fields) as [| |[|]| | |];
    try reflexivity.
  cbn.
  destruct (Http.get_field "response" fields) as [| | | | |r]; cbn;
    try reflexivity.
  all: try by destruct (Http.truthy (Http.get_field "data" r)).
Qed.


(** What a form shows after a failed request: the response body when it
    is truthy, else the error's message. *)
Lemma displayed_rejection (e : Http.AxiosError) :
  Http.displayed e
  = if Http.truthy (Http.response_data e) then Http.response_data e
    else Http.VString (Http.message e).
Proof.
  unfold Http.displayed, Http.rejection. rewrite handleApiError_plain.
  destruct e as [[[st d]|] msg]; cbn; [|reflexivity].
  by destruct (Http.truthy d).
Qed.

End ErrorValues.




(* ===================================================================== *)
(** ** Properties of the edge middleware *)
(* ===================================================================== *)

(** C10.  The middleware answers every request with [NextResponse.next()]:
    it never redirects or blocks, whatever the path. *)
Theorem middleware_passes_through (request : Middleware.NextRequest) :
  Middleware.middleware request = Middleware.NextResponse_next.
Proof.
  unfold Middleware.middleware.
  repeat match goal with
         | |- (if ?b then _ else _) = _ => destruct b
         end; reflexivity.
Qed.

(* ===================================================================== *)
(** ** Properties of the route guard *)
(* ===================================================================== *)

Section RouteGuard.

Implicit Types (props : Guard.ProtectedRouteProps) (w : World)
  (g : Guard.Mounted) (reply : Settled UserResponse Http.AxiosError).

Lemma runEffects_no_token rounds reply g :
  truthy_opt_str (token (store (Guard.world g))) = false →
  Guard.runEffects (S rounds) reply g
  = Some {| Guard.world := Guard.sent_to_login (Guard.world g);
            Guard.isInitialized := Guard.isInitialized g || false;
            Guard.mountedAt := Guard.mountedAt g |}.
Proof.
  intros Htok. cbn [Guard.runEffects]. run_world. rewrite Htok. cbn.
  rewrite bool_decide_eq_true_2 by done.
  unfold Guard.sent_to_login. by rewrite <- !app_assoc.
Qed.

Lemma runEffects_cached_user rounds reply g :
  truthy_opt_str (token (store (Guard.world g))) = true →
  truthy_obj (user (store (Guard.world g))) = true →
  Guard.runEffects (S rounds) reply g
  = Some {| Guard.world := Guard.initialized (Guard.world g);
            Guard.isInitialized := Guard.isInitialized g || true;
            Guard.mountedAt := Guard.mountedAt g |}.
Proof.
  intros Htok Husr. cbn [Guard.runEffects]. run_world.
  rewrite Htok, Husr. cbn.
  rewrite bool_decide_eq_true_2 by done.
  unfold Guard.initialized. by rewrite <- !app_assoc.
Qed.

Lemma ownEvents_mount w : Guard.ownEvents (Guard.mount w) = [].
Proof. unfold Guard.ownEvents, Guard.mount. cbn. apply drop_all. Qed.

(** [requiredRole.some((role) => hasRole(role))] asks whether the cached
    user's role is among the required ones. *)
Lemma some_hasRole s u (roles : list jsstr) :
  user s = Some u →
  existsb (Store.hasRole s) roles = true ↔ role_name (role u) ∈ roles.
Proof.
  intros Hu. rewrite existsb_exists. unfold Store.hasRole, str_eqb.
  rewrite Hu. split.
  - intros (r & Hin & Heq). apply bool_decide_eq_true in Heq as <-.
    by apply list_elem_of_In.
  - intros Hin. exists (role_name (role u)). split.
    + by apply list_elem_of_In.
    + by apply bool_decide_eq_true.
Qed.

End RouteGuard.

(** The specification's scenario: token ["abc"], no cached user, the
    profile request answers with a customer, no role required.  The effect
    runs twice, once to fetch and once because the user changed, and the
    guard ends [Authorized]. *)
Example guard_fetches_profile :
  Guard.guardState Samples.authenticated_only
    <$> Guard.runEffects 2 Samples.profile_reply
          (Guard.mount Samples.token_only_world)
  = Some Guard.Authorized
  ∧ Guard.runEffects 1 Samples.profile_reply
      (Guard.mount Samples.token_only_world) = None.
Proof. split; vm_compute; reflexivity. Qed.

(** C8.  Mounted over a session without a token (null, or the empty string,
    which the code treats alike), the guard starts in [Initializing]
    showing the loading indicator, and its effect settles in one round: it
    pushes ["/login"] once, is then [Unauthenticated], and neither the
    token nor the user changed, so the effect does not run again. *)
Theorem guard_without_token (props : Guard.ProtectedRouteProps)
    (reply : Settled UserResponse Http.AxiosError) (rounds : nat) (w : World) :
  truthy_opt_str (token (store w)) = false →
  Guard.guardState props (Guard.mount w) = Guard.Initializing
  ∧ Guard.ProtectedRoute props (Guard.mount w) = Guard.ViewSpinner
  ∧ ∃ g, Guard.runEffects (S rounds) reply (Guard.mount w) = Some g
      ∧ Guard.guardState props g = Guard.Unauthenticated
      ∧ Guard.ownEvents g
        = [EvStore (Store.SetLoading true); EvRouterPush (js "/login");
           EvStore (Store.SetLoading false)]
      ∧ Guard.loginRedirects (Guard.ownEvents g) = [EvRouterPush (js "/login")]
      ∧ token (store (Guard.world g)) = token (store w)
      ∧ user (store (Guard.world g)) = user (store w).
Proof.
  intros Htok. split; [|split].
  - unfold Guard.guardState. by rewrite ownEvents_mount.
  - reflexivity.
  - eexists. split; [by apply runEffects_no_token |].
    assert (Hown : Guard.ownEvents
              {| Guard.world := Guard.sent_to_login (Guard.world (Guard.mount w));
                 Guard.isInitialized :=
                   Guard.isInitialized (Guard.mount w) || false;
                 Guard.mountedAt := Guard.mountedAt (Guard.mount w) |}
            = [EvStore (Store.SetLoading true); EvRouterPush (js "/login");
               EvStore (Store.SetLoading false)]).
    { unfold Guard.ownEvents. cbn. by rewrite drop_app_length. }
    unfold Guard.guardState. rewrite Hown. repeat split.
Qed.

(** Witness for C8: a visitor who never logged in opens the admin page. *)
Lemma guard_without_token_witness :
  ∃ g, Guard.runEffects 1 Samples.profile_reply
         (Guard.mount Samples.anonymous_world) = Some g
     ∧ Guard.guardState Samples.admin_only g = Guard.Unauthenticated
     ∧ Guard.loginRedirects (Guard.ownEvents g) = [EvRouterPush (js "/login")].
Proof.
  destruct (guard_without_token Samples.admin_only Samples.profile_reply 0
              Samples.anonymous_world)
    as (_ & _ & g & Hrun & Hstate & _ & Hpush & _); [reflexivity |].
  exists g. repeat split; assumption.
Defined.

(** C4 as stated fails in three ways, each for a session that holds a
    token and a cached user.  With a [fallback] prop the forbidden guard
    renders that prop, not a 403 view.  When the session is not marked
    authenticated the guard renders nothing and is [Unauthenticated],
    although no role is required.  When the token is the empty string the
    guard takes it for no token and pushes ["/login"]. *)
Lemma guard_token_and_user_not_enough :
  (¬ (Guard.requiredRole Samples.admin_page = []
      ∨ role_name (role Samples.customer)
        ∈ Guard.requiredRole Samples.admin_page)
   ∧ Guard.ProtectedRoute Samples.admin_page
       <$> Guard.runEffects 1 Samples.profile_reply
             (Guard.mount Samples.browser_world)
     = Some (Guard.ViewFallback (Guard.RElement "AccessDenied"))
   ∧ Guard.ProtectedRoute Samples.admin_page
       <$> Guard.runEffects 1 Samples.profile_reply
             (Guard.mount Samples.browser_world)
     ≠ Some Guard.View403)
  ∧ (token (store Samples.unmarked_world) = Some (js "abc")
     ∧ user (store Samples.unmarked_world) = Some Samples.customer
     ∧ Guard.requiredRole Samples.authenticated_only = []
     ∧ Guard.ProtectedRoute Samples.authenticated_only
         <$> Guard.runEffects 1 Samples.profile_reply
               (Guard.mount Samples.unmarked_world)
       = Some Guard.ViewNull
     ∧ Guard.guardState Samples.authenticated_only
         <$> Guard.runEffects 1 Samples.profile_reply
               (Guard.mount Samples.unmarked_world)
       = Some Guard.Unauthenticated)
  ∧ (token (store Samples.empty_token_world) = Some (js "")
     ∧ user (store Samples.empty_token_world) = Some Samples.customer
     ∧ isAuthenticated (store Samples.empty_token_world) = true
     ∧ Guard.guardState Samples.authenticated_only
         <$> Guard.runEffects 1 Samples.profile_reply
               (Guard.mount Samples.empty_token_world)
       = Some Guard.Unauthenticated
     ∧ (Guard.loginRedirects ∘ Guard.ownEvents)
         <$> Guard.runEffects 1 Samples.profile_reply
               (Guard.mount Samples.empty_token_world)
       = Some [EvRouterPush (js "/login")]).
Proof.
  split; [|split].
  - split; [|split].
    + intros [H | H]; [discriminate H |].
      apply list_elem_of_singleton in H. vm_compute in H. discriminate H.
    + vm_compute. reflexivity.
    + vm_compute. discriminate.
  - repeat split; vm_compute; reflexivity.
  - repeat split; vm_compute; reflexivity.
Qed.

(** C4, amended.  Mounted over a session that holds a token and a cached
    user, the guard's effect settles in one round.
    - If the token is the empty string, the guard takes it for no token: it
      pushes ["/login"] once, keeps the loading indicator and is
      [Unauthenticated].
    - Otherwise it fires no redirect.  If the session is not marked
      authenticated it renders nothing and is [Unauthenticated].  If it is
      marked authenticated and no role is required or the user's role is
      among the required ones, it is [Authorized] and renders its
      children.  Otherwise it is [Forbidden] and renders the [fallback]
      prop when one is given, its own 403 view when none is. *)
Theorem guard_role_evaluation (props : Guard.ProtectedRouteProps)
    (reply : Settled UserResponse Http.AxiosError) (rounds : nat) (w : World)
    (t : jsstr) (u : UserResponse) :
  token (store w) = Some t → user (store w) = Some u →
  ∃ g, Guard.runEffects (S rounds) reply (Guard.mount w) = Some g
     ∧ (t = [] →
        Guard.guardState props g = Guard.Unauthenticated
        ∧ Guard.ProtectedRoute props g = Guard.ViewSpinner
        ∧ Guard.loginRedirects (Guard.ownEvents g)
          = [EvRouterPush (js "/login")])
     ∧ (t ≠ [] →
        Forall (λ e, Guard.isRedirect e = false) (Guard.ownEvents g)
        ∧ (isAuthenticated (store w) = false →
           Guard.guardState props g = Guard.Unauthenticated
           ∧ Guard.ProtectedRoute props g = Guard.ViewNull)
        ∧ (isAuthenticated (store w) = true →
           (Guard.requiredRole props = []
            ∨ role_name (role u) ∈ Guard.requiredRole props →
            Guard.guardState props g = Guard.Authorized
            ∧ Guard.ProtectedRoute props g
              = Guard.ViewChildren (Guard.children props))
           ∧ (¬ (Guard.requiredRole props = []
                 ∨ role_name (role u) ∈ Guard.requiredRole props) →
              Guard.guardState props g = Guard.Forbidden
              ∧ Guard.ProtectedRoute props g
                = if Guard.truthy_node (Guard.fallback props)
                  then Guard.ViewFallback (Guard.fallback props)
                  else Guard.View403))).
Proof.
  intros Htok Husr. destruct t as [|c t].
  - eexists. split.
    { apply runEffects_no_token. cbn. by rewrite Htok. }
    split; [|done]. intros _.
    set (g := {| Guard.world := _ |}).
    assert (Hown : Guard.ownEvents g
                   = [EvStore (Store.SetLoading true);
                      EvRouterPush (js "/login");
                      EvStore (Store.SetLoading false)]).
    { unfold Guard.ownEvents, g. cbn. by rewrite drop_app_length. }
    unfold Guard.guardState. rewrite Hown. repeat split.
  - eexists. split.
    { apply runEffects_cached_user; cbn; [by rewrite Htok | by rewrite Husr]. }
    split; [done |]. intros _.
    set (g := {| Guard.world := _ |}).
    assert (Hown : Guard.ownEvents g
                   = [EvStore (Store.SetLoading true);
                      EvStore (Store.SetLoading false)]).
    { unfold Guard.ownEvents, g. cbn. by rewrite drop_app_length. }
    split; [rewrite Hown; by repeat constructor |].
    unfold Guard.guardState. rewrite Hown.
    cbn [Guard.loginRedirects List.filter].
    split.
    + intros Hflag.
      assert (Hview : Guard.ProtectedRoute props g = Guard.ViewNull).
      { unfold Guard.ProtectedRoute, g. cbn. by rewrite Hflag. }
      by rewrite Hview.
    + intros Hflag.
      assert (Hview : Guard.ProtectedRoute props g
                = if (0 <? length (Guard.requiredRole props))%nat
                     && negb (existsb (Store.hasRole (store (Guard.world g)))
                                (Guard.requiredRole props))
                  then (if Guard.truthy_node (Guard.fallback props)
                        then Guard.ViewFallback (Guard.fallback props)
                        else Guard.View403)
                  else Guard.ViewChildren (Guard.children props)).
      { unfold Guard.ProtectedRoute, g. cbn. by rewrite Hflag, Husr. }
      assert (Hsome : existsb (Store.hasRole (store (Guard.world g)))
                        (Guard.requiredRole props) = true
                      ↔ role_name (role u) ∈ Guard.requiredRole props).
      { by apply some_hasRole. }
      rewrite Hview. split.
      * intros [Hnil | Hin].
        -- rewrite Hnil. done.
        -- apply Hsome in Hin. rewrite Hin, andb_false_r. done.
      * intros Hnot.
        destruct (Guard.requiredRole props) as [|r roles] eqn:Hroles;
          [by destruct Hnot; left |].
        destruct (existsb _ _) eqn:Hex.
        -- destruct Hnot. right. by apply Hsome.
        -- cbn. by destruct (Guard.truthy_node (Guard.fallback props)).
Qed.

(** Witness for C4: a customer on the admin-only page is [Forbidden] and
    sees the 403 view; on a page that asks for no role the same customer is
    [Authorized] and sees the page; with an empty token the customer is
    sent to the login page. *)
Lemma guard_role_evaluation_witness :
  (∃ g, Guard.runEffects 1 Samples.profile_reply
          (Guard.mount Samples.browser_world) = Some g
      ∧ Forall (λ e, Guard.isRedirect e = false) (Guard.ownEvents g)
      ∧ Guard.guardState Samples.admin_only g = Guard.Forbidden
      ∧ Guard.ProtectedRoute Samples.admin_only g = Guard.View403)
  ∧ (∃ g, Guard.runEffects 1 Samples.profile_reply
            (Guard.mount Samples.browser_world) = Some g
        ∧ Guard.guardState Samples.authenticated_only g = Guard.Authorized
        ∧ Guard.ProtectedRoute Samples.authenticated_only g
          = Guard.ViewChildren (Guard.RElement "CustomerDashboard"))
  ∧ (∃ g, Guard.runEffects 1 Samples.profile_reply
            (Guard.mount Samples.empty_token_world) = Some g
        ∧ Guard.guardState Samples.authenticated_only g
          = Guard.Unauthenticated).
Proof.
  split; [|split].
  - destruct (guard_role_evaluation Samples.admin_only Samples.profile_reply 0
                Samples.browser_world (js "abc") Samples.customer)
      as (g & Hrun & _ & Hheld); [reflexivity | reflexivity |].
    destruct Hheld as (Hquiet & _ & Hmarked); [vm_compute; discriminate |].
    destruct Hmarked as [_ Hforbidden]; [reflexivity |].
    exists g. destruct Hforbidden as [Hstate Hview].
    + intros [H | H]; [discriminate H |].
      apply list_elem_of_singleton in H. vm_compute in H. discriminate H.
    + repeat split; assumption.
  - destruct (guard_role_evaluation Samples.authenticated_only
                Samples.profile_reply 0 Samples.browser_world (js "abc")
                Samples.customer)
      as (g & Hrun & _ & Hheld); [reflexivity | reflexivity |].
    destruct Hheld as (_ & _ & Hmarked); [vm_compute; discriminate |].
    destruct Hmarked as [Hauthorized _]; [reflexivity |].
    exists g. destruct Hauthorized as [Hstate Hview]; [by left |].
    repeat split; assumption.
  - destruct (guard_role_evaluation Samples.authenticated_only
                Samples.profile_reply 0 Samples.empty_token_world (js "")
                Samples.customer)
      as (g & Hrun & Hempty & _); [reflexivity | reflexivity |].
    destruct Hempty as (Hstate & _); [reflexivity |].
    exists g. split; assumption.
Defined.

(* ===================================================================== *)
(** ** Further properties of the HTTP client wrapper *)
(* ===================================================================== *)

Section HttpClient.

Implicit Types (error : Http.AxiosError) (w : World)
  (config : Http.RequestConfig).

(** Whatever the error, the response interceptor rejects with it, never
    pushes a route, and touches the session only by logging out. *)
Lemma responseError_effects error w :
  ∃ evs,
    events (Http.responseError error w).2 = events w ++ evs
    ∧ Guard.loginRedirects evs = []
    ∧ (Http.responseError error w).1 = Rejected error
    ∧ (store (Http.responseError error w).2 = store w
       ∨ store (Http.responseError error w).2 = Store.logout (store w)).
Proof.
  destruct error as [[[st d]|] msg], w as [s [href|] evs0];
    unfold Http.responseError, Http.response_status_is; cbn [Http.response
      Http.status].
  1,2: destruct (st =? 401)%Z eqn:H401, (st =? 403)%Z eqn:H403.
  all: run_world; rewrite <- ?app_assoc; eexists; repeat split;
    rewrite ?app_nil_r; eauto.
Qed.

End HttpClient.

(** X1.  Any error that is not a 401 response (another status, or no response at
    all) leaves the session store and the location as they were; the
    interceptor rejects with the same error and at most writes to the
    console. *)
Theorem responseError_keeps_session_unless_401
    (error : Http.AxiosError) (w : World) :
  Http.response_status_is error 401 = false →
  (Http.responseError error w).1 = Rejected error
  ∧ store (Http.responseError error w).2 = store w
  ∧ window (Http.responseError error w).2 = window w
  ∧ ∃ evs, events (Http.responseError error w).2 = events w ++ evs
         ∧ Forall (λ e, ∃ msg, e = EvConsoleError msg) evs.
Proof.
  intros H401.
  destruct error as [[[st d]|] msg], w as [s href evs0];
    unfold Http.responseError; rewrite H401;
    unfold Http.response_status_is in *; cbn [Http.response Http.status] in *.
  - destruct (st =? 403)%Z; run_world; repeat split.
    + eexists. split; [reflexivity |]. repeat constructor. eauto.
    + exists []. by rewrite app_nil_r.
  - run_world. repeat split. eexists. split; [reflexivity |].
    repeat constructor. eauto.
Qed.

(** A request that got no response changes nothing but the console. *)
Lemma responseError_keeps_session_unless_401_witness :
  (Http.responseError Samples.network_error Samples.browser_world).1
  = Rejected Samples.network_error
  ∧ store (Http.responseError Samples.network_error Samples.browser_world).2
    = Samples.logged_in.
Proof.
  destruct (responseError_keeps_session_unless_401 Samples.network_error
              Samples.browser_world) as (Hrej & Hstore & _);
    [reflexivity |].
  split; assumption.
Defined.

(** X2.  With a token in the store, the request interceptor sets the
    [Authorization] header to ["Bearer "] followed by that token (so the
    token is what follows the first seven characters), and leaves every
    other header, the URL, the method and the world alone. *)
Theorem requestInterceptor_attaches_token
    (config : Http.RequestConfig) (w : World) (t : jsstr) :
  token (store w) = Some t → t ≠ [] →
  (Http.requestInterceptor config w).2 = w
  ∧ Http.headers (Http.requestInterceptor config w).1 !! "Authorization"%string
    = Some (js "Bearer " ++ t)
  ∧ drop 7 (js "Bearer " ++ t) = t
  ∧ (∀ k, k ≠ "Authorization"%string →
       Http.headers (Http.requestInterceptor config w).1 !! k
       = Http.headers config !! k)
  ∧ Http.url (Http.requestInterceptor config w).1 = Http.url config
  ∧ Http.method (Http.requestInterceptor config w).1 = Http.method config.
Proof.
  intros Htok Ht. unfold Http.requestInterceptor. rewrite Htok.
  apply truthy_str_true in Ht. cbn [truthy_opt_str default]. rewrite Ht.
  cbn [fst snd Http.headers Http.url Http.method]. repeat split.
  - apply lookup_insert_eq.
  - intros k Hk. by rewrite lookup_insert_ne.
Qed.

(** The profile request of a logged-in user carries the token. *)
Lemma requestInterceptor_attaches_token_witness :
  Http.headers
    (Http.requestInterceptor Samples.get_profile Samples.browser_world).1
    !! "Authorization"%string
  = Some (js "Bearer abc").
Proof.
  destruct (requestInterceptor_attaches_token Samples.get_profile
              Samples.browser_world (js "abc")) as (_ & Hheader & _);
    [reflexivity | vm_compute; discriminate |].
  exact Hheader.
Defined.

(** X3.  Once a 401 has gone through the response interceptor, the request
    interceptor adds no credentials: the next request goes out exactly as
    it was configured. *)
Theorem no_bearer_after_401
    (error : Http.AxiosError) (config : Http.RequestConfig) (w : World) :
  Http.response_status_is error 401 = true →
  (Http.requestInterceptor config (Http.responseError error w).2).1 = config.
Proof.
  intros H401. unfold Http.requestInterceptor.
  assert (Htok : token (store (Http.responseError error w).2) = None).
  { unfold Http.response_status_is in H401.
    destruct error as [[[st d]|] msg]; [|done]. cbn in H401.
    apply Z.eqb_eq in H401 as ->.
    destruct w as [s [href|] evs0]; run_world; reflexivity. }
  by rewrite Htok.
Qed.

(** After the 401 of the samples, the profile request has no
    [Authorization] header. *)
Lemma no_bearer_after_401_witness :
  Http.headers
    (Http.requestInterceptor Samples.get_profile
       (Http.responseError Samples.unauthorized Samples.browser_world).2).1
    !! "Authorization"%string
  = None.
Proof.
  rewrite (no_bearer_after_401 Samples.unauthorized Samples.get_profile
             Samples.browser_world); reflexivity.
Defined.

(* ===================================================================== *)
(** ** Further properties of the route guard *)
(* ===================================================================== *)

Section RouteGuardPaths.

Implicit Types (props : Guard.ProtectedRouteProps) (w : World)
  (g : Guard.Mounted) (reply : Settled UserResponse Http.AxiosError)
  (u : UserResponse).

(** What an initialised guard over an authenticated session renders. *)
Lemma ProtectedRoute_ready props g u :
  Guard.isInitialized g = true →
  isAuthenticated (store (Guard.world g)) = true →
  user (store (Guard.world g)) = Some u →
  Guard.ProtectedRoute props g
  = if decide (Guard.requiredRole props = []
               ∨ role_name (role u) ∈ Guard.requiredRole props)
    then Guard.ViewChildren (Guard.children props)
    else if Guard.truthy_node (Guard.fallback props)
         then Guard.ViewFallback (Guard.fallback props)
         else Guard.View403.
Proof.
  intros Hinit Hauth Husr. unfold Guard.ProtectedRoute.
  rewrite Hinit, Hauth, Husr. cbn [negb orb truthy_obj].
  pose proof (some_hasRole (store (Guard.world g)) u
                (Guard.requiredRole props) Husr) as Hsome.
  destruct (Guard.requiredRole props) as [|r roles] eqn:Hroles.
  - cbn. rewrite decide_True; [done | by left].
  - cbn [length Nat.ltb Nat.leb andb].
    destruct (existsb _ _) eqn:Hex; cbn [negb].
    + rewrite decide_True; [done | right; by apply Hsome].
    + rewrite decide_False; [done |].
      intros [? | Hin]; [done |]. apply Hsome in Hin. congruence.
Qed.

(** One run of the effect when the profile request fails. *)
Lemma initializeAuth_fetch_fails (t : jsstr) (e : Http.AxiosError) w :
  t ≠ [] →
  ∃ w' evs,
    Guard.initializeAuth (Some t) None (Rejected e) w = (false, w')
    ∧ store w'
      = {| token := None; user := None; isLoading := false;
           isAuthenticated := false |}
    ∧ events w'
      = events w ++ EvStore (Store.SetLoading true) :: evs
          ++ [EvConsoleError "Failed to fetch user profile:";
              EvStore Store.Logout; EvRouterPush (js "/login");
              EvStore (Store.SetLoading false)]
    ∧ Guard.loginRedirects evs = [].
Proof.
  intros Ht. apply truthy_str_true in Ht.
  unfold Guard.initializeAuth, Guard.getProfile.
  cbn [truthy_opt_str truthy_obj negb andb]. rewrite Ht. cbn [negb andb].
  cbv [mbind mret M_bind M_ret dispatch emit console_error router_push].
  match goal with
  | |- context [Http.responseError e ?w1] =>
      destruct (responseError_effects e w1) as (evs & Hev & Hpush & _ & _);
      destruct (Http.responseError e w1) as [r w2]
  end.
  cbn in *. eexists _, evs. split; [reflexivity |]. cbn.
  split; [reflexivity |]. split; [|done].
  rewrite Hev. by rewrite <- !app_assoc.
Qed.

End RouteGuardPaths.

(** X4.  Token held, no cached user, and the profile request succeeds: the
    first run of the effect logs in with the same token and the fetched
    user, the change of [user] makes the effect run once more, and then the
    guard is settled without any redirect and decides by role. *)
Theorem guard_profile_fetch_succeeds (props : Guard.ProtectedRouteProps)
    (rounds : nat) (w : World) (t : jsstr) (u : UserResponse) :
  token (store w) = Some t → t ≠ [] → user (store w) = None →
  ∃ g, Guard.runEffects (S (S rounds)) (Fulfilled u) (Guard.mount w) = Some g
     ∧ token (store (Guard.world g)) = Some t
     ∧ user (store (Guard.world g)) = Some u
     ∧ isAuthenticated (store (Guard.world g)) = true
     ∧ isLoading (store (Guard.world g)) = false
     ∧ Guard.ownEvents g
       = [EvStore (Store.SetLoading true); EvStore (Store.Login t u);
          EvStore (Store.SetLoading false);
          EvStore (Store.SetLoading true); EvStore (Store.SetLoading false)]
     ∧ Guard.ProtectedRoute props g
       = if decide (Guard.requiredRole props = []
                    ∨ role_name (role u) ∈ Guard.requiredRole props)
         then Guard.ViewChildren (Guard.children props)
         else if Guard.truthy_node (Guard.fallback props)
              then Guard.ViewFallback (Guard.fallback props)
              else Guard.View403.
Proof.
  intros Htok Ht Husr. pose proof Ht as Ht'. apply truthy_str_true in Ht'.
  destruct w as [s win evs0]. cbn in Htok, Husr.
  remember (S rounds) as again eqn:Hagain.
  cbn [Guard.runEffects Guard.mount Guard.world store]. rewrite Htok, Husr.
  run_world. rewrite Ht'. cbn.
  rewrite bool_decide_eq_false_2 by (intros [_ ?]; done).
  subst again. rewrite runEffects_cached_user by (cbn; done).
  eexists. split; [reflexivity |].
  do 4 (split; [reflexivity |]). split.
  - unfold Guard.ownEvents. cbn. rewrite <- !app_assoc.
    by rewrite drop_app_length.
  - by apply ProtectedRoute_ready.
Qed.

(** A rehydrated token, and a profile request that answers with the
    customer: the customer's page is shown. *)
Lemma guard_profile_fetch_succeeds_witness :
  ∃ g, Guard.runEffects 2 (Fulfilled Samples.customer)
         (Guard.mount Samples.token_only_world) = Some g
     ∧ user (store (Guard.world g)) = Some Samples.customer
     ∧ Guard.ProtectedRoute Samples.authenticated_only g
       = Guard.ViewChildren (Guard.RElement "CustomerDashboard").
Proof.
  destruct (guard_profile_fetch_succeeds Samples.authenticated_only 0
              Samples.token_only_world (js "abc") Samples.customer)
    as (g & Hrun & _ & Husr & _ & _ & _ & Hview);
    [reflexivity | vm_compute; discriminate | reflexivity |].
  exists g. repeat split; assumption.
Defined.

(** X5.  Token held, no cached user, and the profile request fails: the session
    is cleared, the guard never becomes initialised (it keeps showing the
    loading indicator) and is [Unauthenticated].  The failed run pushes
    ["/login"], and so does the run that the change of [token] triggers:
    two pushes in all. *)
Theorem guard_profile_fetch_fails (props : Guard.ProtectedRouteProps)
    (rounds : nat) (w : World) (t : jsstr) (e : Http.AxiosError) :
  token (store w) = Some t → t ≠ [] → user (store w) = None →
  ∃ g, Guard.runEffects (S (S rounds)) (Rejected e) (Guard.mount w) = Some g
     ∧ token (store (Guard.world g)) = None
     ∧ user (store (Guard.world g)) = None
     ∧ isAuthenticated (store (Guard.world g)) = false
     ∧ Guard.ProtectedRoute props g = Guard.ViewSpinner
     ∧ Guard.guardState props g = Guard.Unauthenticated
     ∧ Guard.loginRedirects (Guard.ownEvents g)
       = [EvRouterPush (js "/login"); EvRouterPush (js "/login")].
Proof.
  intros Htok Ht Husr.
  destruct (initializeAuth_fetch_fails t e w Ht)
    as (w1 & evs & Hrun & Hstore & Hevents & Hquiet).
  remember (S rounds) as again eqn:Hagain.
  cbn [Guard.runEffects Guard.mount Guard.world]. rewrite Htok, Husr, Hrun.
  rewrite Hstore. cbn [token user]. subst again.
  rewrite bool_decide_eq_false_2 by (intros [? _]; done).
  rewrite runEffects_no_token by (cbn; by rewrite Hstore).
  eexists. split; [reflexivity |].
  assert (Hown : Guard.loginRedirects
            (drop (length (events w)) (events (Guard.sent_to_login w1)))
          = [EvRouterPush (js "/login"); EvRouterPush (js "/login")]).
  { cbn [Guard.sent_to_login events]. rewrite Hevents.
    rewrite <- !app_assoc, drop_app_length.
    unfold Guard.loginRedirects in *. cbn [app List.filter].
    rewrite !List.filter_app, Hquiet. reflexivity. }
  cbn [Guard.world Guard.sent_to_login store]. rewrite Hstore.
  do 4 (split; [reflexivity |]).
  unfold Guard.guardState, Guard.ownEvents.
  cbn [Guard.world Guard.mountedAt Guard.mount].
  by rewrite Hown.
Qed.

(** A rehydrated token that the server no longer accepts. *)
Lemma guard_profile_fetch_fails_witness :
  ∃ g, Guard.runEffects 2 (Rejected Samples.unauthorized)
         (Guard.mount Samples.token_only_world) = Some g
     ∧ token (store (Guard.world g)) = None
     ∧ Guard.guardState Samples.authenticated_only g = Guard.Unauthenticated.
Proof.
  destruct (guard_profile_fetch_fails Samples.authenticated_only 0
              Samples.token_only_world (js "abc") Samples.unauthorized)
    as (g & Hrun & Htok & _ & _ & _ & Hstate & _);
    [reflexivity | vm_compute; discriminate | reflexivity |].
  exists g. repeat split; assumption.
Defined.

Section RouteGuardSafety.

Implicit Types (props : Guard.ProtectedRouteProps) (w : World)
  (g : Guard.Mounted) (reply : Settled UserResponse Http.AxiosError).

(** A run of the effect reports "initialised" only over a token and a
    user, and keeps both when it starts with both. *)
Lemma initializeAuth_initialized reply w :
  ((Guard.initializeAuth (token (store w)) (user (store w)) reply w).1 = true
   ∨ (truthy_opt_str (token (store w)) = true
      ∧ truthy_obj (user (store w)) = true)) →
  truthy_opt_str
    (token (store (Guard.initializeAuth (token (store w)) (user (store w))
                     reply w).2)) = true
  ∧ truthy_obj
      (user (store (Guard.initializeAuth (token (store w)) (user (store w))
                      reply w).2)) = true.
Proof.
  destruct w as [[[[|c t]|] [u|] ld au] win evs0]; cbn [store token user].
  all: try (run_world; intros [? | [? ?]]; done).
  destruct reply as [u|e].
  - run_world. done.
  - destruct (initializeAuth_fetch_fails (c :: t) e
                {| store := {| token := Some (c :: t); user := None;
                               isLoading := ld; isAuthenticated := au |};
                   window := win; events := evs0 |})
      as (w' & evs & Hrun & _); [done |].
    rewrite Hrun. intros [? | [? ?]]; done.
Qed.

(** However often the effect runs, an initialised guard sits over a
    session with a token and a user. *)
Lemma runEffects_initialized rounds reply g g' :
  (Guard.isInitialized g = true →
   truthy_opt_str (token (store (Guard.world g))) = true
   ∧ truthy_obj (user (store (Guard.world g))) = true) →
  Guard.runEffects rounds reply g = Some g' →
  Guard.isInitialized g' = true →
  truthy_opt_str (token (store (Guard.world g'))) = true
  ∧ truthy_obj (user (store (Guard.world g'))) = true.
Proof.
  revert g. induction rounds as [|rounds IH]; intros g Hg; [done |].
  cbn [Guard.runEffects].
  pose proof (initializeAuth_initialized reply (Guard.world g)) as Hstep.
  destruct (Guard.initializeAuth _ _ reply (Guard.world g)) as [b w'].
  cbn [fst snd] in Hstep.
  assert (Hnext : Guard.isInitialized g || b = true →
            truthy_opt_str (token (store w')) = true
            ∧ truthy_obj (user (store w')) = true).
  { intros [Hi | Hb]%orb_true_iff; apply Hstep; auto. }
  case_bool_decide.
  - intros [= <-]. exact Hnext.
  - apply IH. exact Hnext.
Qed.

End RouteGuardSafety.

(** X6.  The guard never shows protected content to a visitor it has not let
    in: whenever a mounted guard, after any number of effect runs and
    whatever the profile request answered, renders its children, the
    session holds a token and a user, is marked authenticated, and the
    user's role is among the required ones (or none is required). *)
Theorem guard_children_only_when_authorized
    (props : Guard.ProtectedRouteProps) (rounds : nat)
    (reply : Settled UserResponse Http.AxiosError) (w : World)
    (g : Guard.Mounted) (content : Guard.ReactNode) :
  Guard.runEffects rounds reply (Guard.mount w) = Some g →
  Guard.ProtectedRoute props g = Guard.ViewChildren content →
  content = Guard.children props
  ∧ truthy_opt_str (token (store (Guard.world g))) = true
  ∧ isAuthenticated (store (Guard.world g)) = true
  ∧ ∃ u, user (store (Guard.world g)) = Some u
       ∧ (Guard.requiredRole props = []
          ∨ role_name (role u) ∈ Guard.requiredRole props).
Proof.
  intros Hrun Hview.
  assert (Hinit : Guard.isInitialized g = true).
  { unfold Guard.ProtectedRoute in Hview.
    by destruct (Guard.isInitialized g). }
  assert (Hauth : isAuthenticated (store (Guard.world g)) = true).
  { unfold Guard.ProtectedRoute in Hview. rewrite Hinit in Hview.
    by destruct (isAuthenticated (store (Guard.world g))). }
  destruct (runEffects_initialized rounds reply (Guard.mount w) g)
    as [Htok Husr]; [done | done | done |].
  destruct (user (store (Guard.world g))) as [u|] eqn:Hu; [|done].
  rewrite (ProtectedRoute_ready props g u Hinit Hauth Hu) in Hview.
  case_decide as Hrole.
  - injection Hview as <-. eauto 10.
  - by destruct (Guard.truthy_node (Guard.fallback props)).
Qed.

(** The customer of the samples sees the customer page: the session behind
    it has the token and the user. *)
Lemma guard_children_only_when_authorized_witness :
  ∃ g, Guard.runEffects 1 Samples.profile_reply
         (Guard.mount Samples.browser_world) = Some g
     ∧ truthy_opt_str (token (store (Guard.world g))) = true
     ∧ isAuthenticated (store (Guard.world g)) = true.
Proof.
  eexists. split; [vm_compute; reflexivity |].
  match goal with
  | |- context [Guard.world ?g] =>
      destruct (guard_children_only_when_authorized
                  Samples.authenticated_only 1 Samples.profile_reply
                  Samples.browser_world g
                  (Guard.RElement "CustomerDashboard"))
        as (_ & Htok & Hauth & _);
        [vm_compute; reflexivity | vm_compute; reflexivity |]
  end.
  split; assumption.
Defined.

(** X7.  The three wrappers over an initialised guard and an authenticated
    session: [AdminOnly] shows its content to admins only, [EmployeeOnly]
    to employees and admins, [AuthenticatedOnly] to everybody; everyone
    else gets the built-in 403 view. *)
Theorem role_wrappers (content : Guard.ReactNode) (g : Guard.Mounted)
    (u : UserResponse) :
  Guard.isInitialized g = true →
  isAuthenticated (store (Guard.world g)) = true →
  user (store (Guard.world g)) = Some u →
  Guard.ProtectedRoute (Guard.AdminOnly content) g
  = match role u with
    | ROLE_ADMIN => Guard.ViewChildren content
    | ROLE_CUSTOMER | ROLE_EMPLOYEE => Guard.View403
    end
  ∧ Guard.ProtectedRoute (Guard.EmployeeOnly content) g
    = match role u with
      | ROLE_EMPLOYEE | ROLE_ADMIN => Guard.ViewChildren content
      | ROLE_CUSTOMER => Guard.View403
      end
  ∧ Guard.ProtectedRoute (Guard.AuthenticatedOnly content) g
    = Guard.ViewChildren content.
Proof.
  intros Hinit Hauth Husr.
  rewrite !(ProtectedRoute_ready _ g u Hinit Hauth Husr).
  cbn [Guard.AdminOnly Guard.EmployeeOnly Guard.AuthenticatedOnly
       Guard.requiredRole Guard.children Guard.fallback Guard.truthy_node].
  destruct (role u); cbn [role_name]; repeat split;
    first [ rewrite decide_True by (first [by left | right; by_evaluation])
          | rewrite decide_False by by_evaluation ];
    reflexivity.
Qed.

(** The customer of the samples on an admin-only and on an
    employee-only page. *)
Lemma role_wrappers_witness :
  Guard.ProtectedRoute (Guard.AdminOnly (Guard.RElement "AdminDashboardContent"))
    Samples.customer_at_home = Guard.View403
  ∧ Guard.ProtectedRoute (Guard.EmployeeOnly (Guard.RElement "EmployeeDashboard"))
      Samples.customer_at_home = Guard.View403.
Proof.
  destruct (role_wrappers (Guard.RElement "AdminDashboardContent")
              Samples.customer_at_home Samples.customer)
    as (Hadmin & _ & _); [reflexivity | reflexivity | reflexivity |].
  destruct (role_wrappers (Guard.RElement "EmployeeDashboard")
              Samples.customer_at_home Samples.customer)
    as (_ & Hemployee & _); [reflexivity | reflexivity | reflexivity |].
  split; assumption.
Defined.

(** X8.  [requireRole] changes neither the session nor the location.  It
    answers [true] exactly for an authenticated session whose user's role
    is among [roles], and then pushes nothing; otherwise it pushes one
    route: ["/login"] when the session is not authenticated or has no user,
    else the caller's [redirectPath] (["/"] when omitted). *)
Theorem requireRole_decides (roles : list jsstr)
    (redirectPath : option jsstr) (w : World) :
  store (Guard.requireRole roles redirectPath w).2 = store w
  ∧ window (Guard.requireRole roles redirectPath w).2 = window w
  ∧ ((Guard.requireRole roles redirectPath w).1 = true
     ↔ isAuthenticated (store w) = true
       ∧ ∃ u, user (store w) = Some u ∧ role_name (role u) ∈ roles)
  ∧ events (Guard.requireRole roles redirectPath w).2
    = events w
      ++ (if (Guard.requireRole roles redirectPath w).1 then []
          else if negb (isAuthenticated (store w))
                  || negb (truthy_obj (user (store w)))
               then [EvRouterPush (js "/login")]
               else [EvRouterPush (default (js "/") redirectPath)]).
Proof.
  destruct w as [[tok usr ld au] win evs0].
  unfold Guard.requireRole, Guard.useAuth. run_world.
  destruct au, usr as [u|]; cbn.
  2-4: split; [done |]; split; [done |]; split; [|done];
       split; [done |]; intros [Hau (u' & Hu' & _)]; done.
  pose proof (some_hasRole
                {| token := tok; user := Some u; isLoading := ld;
                   isAuthenticated := true |} u roles eq_refl) as Hsome.
  destruct (existsb _ roles) eqn:Hex; cbn;
    (split; [done |]; split; [done |]; split).
  - split; [|done]. intros _. split; [done |]. exists u.
    split; [done |]. by apply Hsome.
  - by rewrite app_nil_r.
  - split; [done |]. intros [_ (u' & [= <-] & Hin)].
    apply Hsome in Hin. congruence.
  - done.
Qed.

(** X9.  An empty role list means opposite things to the hook and to the
    component: for an authenticated session [requireRole([])] denies and
    redirects, while a [ProtectedRoute] that requires no role shows its
    content. *)
Theorem requireRole_empty_list (redirectPath : option jsstr)
    (content : Guard.ReactNode) (g : Guard.Mounted) (u : UserResponse) :
  Guard.isInitialized g = true →
  isAuthenticated (store (Guard.world g)) = true →
  user (store (Guard.world g)) = Some u →
  (Guard.requireRole [] redirectPath (Guard.world g)).1 = false
  ∧ events (Guard.requireRole [] redirectPath (Guard.world g)).2
    = events (Guard.world g)
      ++ [EvRouterPush (default (js "/") redirectPath)]
  ∧ Guard.ProtectedRoute (Guard.AuthenticatedOnly content) g
    = Guard.ViewChildren content.
Proof.
  intros Hinit Hauth Husr. split; [|split].
  - unfold Guard.requireRole, Guard.useAuth. run_world.
    by rewrite Hauth, Husr.
  - unfold Guard.requireRole, Guard.useAuth. run_world.
    by rewrite Hauth, Husr.
  - rewrite (ProtectedRoute_ready _ g u Hinit Hauth Husr).
    by rewrite decide_True by by left.
Qed.

(** The customer of the samples asks for no role at all. *)
Lemma requireRole_empty_list_witness :
  (Guard.requireRole [] None (Guard.world Samples.customer_at_home)).1 = false
  ∧ Guard.ProtectedRoute
      (Guard.AuthenticatedOnly (Guard.RElement "CustomerDashboard"))
      Samples.customer_at_home
    = Guard.ViewChildren (Guard.RElement "CustomerDashboard").
Proof.
  destruct (requireRole_empty_list None (Guard.RElement "CustomerDashboard")
              Samples.customer_at_home Samples.customer)
    as (Hdenied & _ & Hshown); [reflexivity | reflexivity | reflexivity |].
  split; assumption.
Defined.

(* ===================================================================== *)
(** ** Properties of the navigation bar *)
(* ===================================================================== *)

(** X10.  The links the navigation bar shows, for every session: the home page
    always; nothing else to a visitor who is not authenticated or has no
    user record; the profile to every user, the customer dashboard to
    customers, the employee dashboard to employees and admins, the admin
    dashboard to admins. *)
Theorem navigation_by_role (s : AuthState) :
  Navigation.href <$> Navigation.filteredLinks s
  = js "/"
    :: (if isAuthenticated s then
          match user s with
          | None => []
          | Some u =>
              js "/profile"
              :: match role u with
                 | ROLE_CUSTOMER => [js "/customer"]
                 | ROLE_EMPLOYEE => [js "/employee"]
                 | ROLE_ADMIN => [js "/employee"; js "/admin"]
                 end
          end
        else []).
Proof.
  destruct s as [tok [[i fn ln em [| |] en]|] ld [|]]; vm_compute; reflexivity.
Qed.

(** X11.  The filter over the links has something to remove only for a session
    that is marked authenticated without a user record; for every other
    session the links shown are the links built. *)
Theorem navigation_filter_keeps_all (s : AuthState) :
  (isAuthenticated s = true → user s ≠ None) →
  Navigation.filteredLinks s = Navigation.navigationLinks s.
Proof.
  destruct s as [tok [[i fn ln em [| |] en]|] ld [|]]; intros H;
    try (vm_compute; reflexivity).
  by destruct H.
Qed.

(** The logged-in customer sees all three links built for a customer. *)
Lemma navigation_filter_keeps_all_witness :
  Navigation.href <$> Navigation.filteredLinks Samples.logged_in
  = [js "/"; js "/profile"; js "/customer"]
  ∧ Navigation.filteredLinks Samples.logged_in
    = Navigation.navigationLinks Samples.logged_in.
Proof.
  split; [reflexivity |].
  apply (navigation_filter_keeps_all Samples.logged_in).
  intros _. vm_compute. discriminate.
Defined.

(* ===================================================================== *)
(** ** Further properties of the validators *)
(* ===================================================================== *)

Section Names.

Implicit Types (s : jsstr) (f : Forms.RegisterFormData).

Lemma trimStart_nil s : trimStart s = [] ↔ forallb is_space s = true.
Proof.
  induction s as [|c s IH]; [done |]. simpl.
  destruct (is_space c); simpl; [done |]. split; done.
Qed.

(** [trim] leaves nothing exactly of the strings made of white space. *)
Lemma trim_nil s : trim s = [] ↔ forallb is_space s = true.
Proof.
  unfold trim, trimEnd. split.
  - intros H. apply (f_equal (@rev N)) in H. rewrite rev_involutive in H.
    simpl in H. apply trimStart_nil in H.
    assert (Hall : forallb is_space (trimStart s) = true).
    { rewrite forallb_forall in *. intros c Hc. apply H.
      by apply in_rev in Hc. }
    apply trimStart_nil.
    clear H. induction s as [|c s IH]; [done |]. simpl in *.
    destruct (is_space c) eqn:Hc; [by apply IH |].
    simpl in Hall. by rewrite Hc in Hall.
  - intros H. apply trimStart_nil in H. by rewrite H.
Qed.

Lemma truthy_trim s : truthy_str (trim s) = negb (forallb is_space s).
Proof.
  destruct (forallb is_space s) eqn:H.
  - apply trim_nil in H. by rewrite H.
  - destruct (trim s) eqn:Ht; [|done].
    apply trim_nil in Ht. congruence.
Qed.

Lemma validateForm_firstName f :
  (Forms.validateForm f).1 !! "firstName"%string
  = if negb (truthy_str (trim (Forms.firstName f))) then
      Some "First name is required"%string
    else if (length (trim (Forms.firstName f)) <? 2)%nat then
      Some "First name must be at least 2 characters"%string
    else None.
Proof.
  unfold Forms.validateForm. cbn [fst].
  destruct (negb (truthy_str (trim (Forms.firstName f)))),
    (length (trim (Forms.firstName f)) <? 2)%nat; lookup_through; done.
Qed.

Lemma validateForm_lastName f :
  (Forms.validateForm f).1 !! "lastName"%string
  = if negb (truthy_str (trim (Forms.lastName f))) then
      Some "Last name is required"%string
    else if (length (trim (Forms.lastName f)) <? 2)%nat then
      Some "Last name must be at least 2 characters"%string
    else None.
Proof.
  unfold Forms.validateForm. cbn [fst].
  destruct (negb (truthy_str (trim (Forms.lastName f)))),
    (length (trim (Forms.lastName f)) <? 2)%nat; lookup_through; done.
Qed.

Lemma validateForm_confirmPassword f :
  (Forms.validateForm f).1 !! "confirmPassword"%string = None
  ↔ Forms.confirmPassword f ≠ []
    ∧ Forms.password f = Forms.confirmPassword f.
Proof.
  unfold Forms.validateForm, str_eqb. cbn [fst].
  rewrite <- truthy_str_true.
  destruct (truthy_str (Forms.confirmPassword f)); cbn [negb].
  - case_bool_decide; cbn [negb]; lookup_through; split;
      (done || (intros [? ?]; done)).
  - lookup_through; split; (done || (intros [? ?]; done)).
Qed.

(** A trimmed name is long enough exactly when neither name check fires. *)
Lemma name_long_enough s :
  negb (truthy_str (trim s)) = false ∧ (length (trim s) <? 2)%nat = false
  ↔ (2 ≤ length (trim s))%nat.
Proof.
  rewrite Nat.ltb_ge. split; [by intros [_ ?] |]. intros H. split; [|done].
  destruct (trim s); [simpl in H; lia | done].
Qed.

End Names.

Section PasswordLines.

Implicit Types (s u line : jsstr) (p : N → bool).

Lemma letters_and_digits_are_not_terminators c :
  Spec.lowercase c = true ∨ Spec.uppercase c = true ∨ Spec.decimal c = true →
  is_line_terminator c = false.
Proof.
  unfold Spec.lowercase, Spec.uppercase, Spec.decimal, is_line_terminator.
  intros H.
  destruct (N.eqb_spec c 10), (N.eqb_spec c 13), (N.eqb_spec c 8232),
    (N.eqb_spec c 8233); subst; try reflexivity;
    vm_compute in H; destruct H as [H | [H | H]]; discriminate H.
Qed.

(** A character sitting at most [n] places into [u] is within the first
    [S n] characters. *)
Lemma within_take u (r t : jsstr) c n :
  u = r ++ c :: t → (length r ≤ n)%nat → c ∈ take (S n) u.
Proof.
  intros -> Hn. apply list_elem_of_lookup. exists (length r).
  rewrite lookup_take_lt by lia. by apply list_lookup_middle.
Qed.

(** The stretch up to and including a character reached over a run without
    line terminators is a single line, if the character is none either. *)
Lemma take_single_line u (r t : jsstr) c :
  u = r ++ c :: t →
  (∀ x, x ∈ r → is_line_terminator x = false) →
  is_line_terminator c = false →
  Spec.single_line (take (S (length r)) u).
Proof.
  intros -> Hr Hc x Hx.
  replace (r ++ c :: t) with ((r ++ [c]) ++ t) in Hx
    by (by rewrite <- app_assoc).
  rewrite take_app_length' in Hx by (rewrite length_app; simpl; lia).
  apply elem_of_app in Hx as [Hx | Hx]; [by apply Hr |].
  by apply list_elem_of_singleton in Hx as ->.
Qed.

(** The password pattern, for every string: some one line holds all three
    kinds of character. *)
Lemma test_password_re_lines s :
  test password_re s = true ↔ Spec.line_with_all_three s.
Proof.
  rewrite test_spec. unfold Spec.line_with_all_three. split.
  - intros (pre & u & -> & Hm).
    apply matches_at_password_re in Hm as (H1 & H2 & H3).
    apply matches_at_dots_then in H1 as (r1 & c1 & t1 & E1 & L1 & Hc1).
    apply matches_at_dots_then in H2 as (r2 & c2 & t2 & E2 & L2 & Hc2).
    apply matches_at_dots_then in H3 as (r3 & c3 & t3 & E3 & L3 & Hc3).
    set (n := (length r1 `max` (length r2 `max` length r3))%nat).
    exists pre, (take (S n) u), (drop (S n) u).
    split; [by rewrite take_drop |]. split; [|repeat split].
    + assert (Hn : n = length r1 ∨ n = length r2 ∨ n = length r3)
        by (unfold n; lia).
      destruct Hn as [-> | [-> | ->]].
      * apply (take_single_line u r1 t1 c1 E1 L1).
        apply letters_and_digits_are_not_terminators. auto.
      * apply (take_single_line u r2 t2 c2 E2 L2).
        apply letters_and_digits_are_not_terminators. auto.
      * apply (take_single_line u r3 t3 c3 E3 L3).
        apply letters_and_digits_are_not_terminators. auto.
    + exists c1. split; [|done].
      apply (within_take u r1 t1 c1 n E1). unfold n. lia.
    + exists c2. split; [|done].
      apply (within_take u r2 t2 c2 n E2). unfold n. lia.
    + exists c3. split; [|done].
      apply (within_take u r3 t3 c3 n E3). unfold n. lia.
  - intros (before & line & after & -> & Hline & H1 & H2 & H3).
    exists before, (line ++ after). split; [done |].
    assert (Hfind : ∀ p, Spec.contains p line →
              matches_at (Seq (Star dot) (Class p)) (line ++ after) = true).
    { intros p (c & Hin & Hc). apply matches_at_dots_then.
      apply list_elem_of_split in Hin as (r & t & ->).
      exists r, c, (t ++ after). split; [by rewrite <- app_assoc |].
      split; [|done]. intros x Hx. apply Hline. rewrite elem_of_app. auto. }
    apply matches_at_password_re. repeat split; by apply Hfind.
Qed.

End PasswordLines.

(** X12.  [validateForm] records no error for a name exactly when the name, with
    the white space around it trimmed off, has at least two characters;
    the two names are judged independently of each other and of the other
    fields. *)
Theorem validateForm_names (f : Forms.RegisterFormData) :
  ((Forms.validateForm f).1 !! "firstName"%string = None
   ↔ (2 ≤ length (trim (Forms.firstName f)))%nat)
  ∧ ((Forms.validateForm f).1 !! "lastName"%string = None
     ↔ (2 ≤ length (trim (Forms.lastName f)))%nat).
Proof.
  rewrite validateForm_firstName, validateForm_lastName,
    <- !name_long_enough.
  split.
  - destruct (negb (truthy_str (trim (Forms.firstName f)))),
      (length (trim (Forms.firstName f)) <? 2)%nat;
      split; (done || (intros [? ?]; done)).
  - destruct (negb (truthy_str (trim (Forms.lastName f)))),
      (length (trim (Forms.lastName f)) <? 2)%nat;
      split; (done || (intros [? ?]; done)).
Qed.

(** X13.  A name typed as white space only, however long, is reported as
    missing, not as too short. *)
Theorem validateForm_blank_names (f : Forms.RegisterFormData) :
  ((∀ c, c ∈ Forms.firstName f → is_space c = true) →
   (Forms.validateForm f).1 !! "firstName"%string
   = Some "First name is required"%string)
  ∧ ((∀ c, c ∈ Forms.lastName f → is_space c = true) →
     (Forms.validateForm f).1 !! "lastName"%string
     = Some "Last name is required"%string).
Proof.
  rewrite validateForm_firstName, validateForm_lastName, !truthy_trim.
  split; intros H.
  - replace (forallb is_space (Forms.firstName f)) with true; [done |].
    symmetry. apply forallb_forall. intros c Hc. by apply H, list_elem_of_In.
  - replace (forallb is_space (Forms.lastName f)) with true; [done |].
    symmetry. apply forallb_forall. intros c Hc. by apply H, list_elem_of_In.
Qed.

(** Three spaces for a first name, a tab and a no-break space for a last
    name. *)
Lemma validateForm_blank_names_witness :
  (Forms.validateForm Samples.blank_names).1 !! "firstName"%string
  = Some "First name is required"%string
  ∧ (Forms.validateForm Samples.blank_names).1 !! "lastName"%string
    = Some "Last name is required"%string.
Proof.
  destruct (validateForm_blank_names Samples.blank_names) as [Hfirst Hlast].
  split.
  - apply Hfirst. intros c Hc. vm_compute in Hc.
    repeat (apply elem_of_cons in Hc as [-> | Hc]; [reflexivity |]).
    by apply elem_of_nil in Hc.
  - apply Hlast. intros c Hc. vm_compute in Hc.
    repeat (apply elem_of_cons in Hc as [-> | Hc]; [reflexivity |]).
    by apply elem_of_nil in Hc.
Defined.

(** X14.  For every password, [validateForm] records no password error exactly
    when the password has at least eight characters and one of its lines
    holds a lowercase letter, an uppercase letter and a digit. *)
Theorem validateForm_password_lines (f : Forms.RegisterFormData) :
  (Forms.validateForm f).1 !! "password"%string = None
  ↔ (8 ≤ length (Forms.password f))%nat
    ∧ Spec.line_with_all_three (Forms.password f).
Proof.
  rewrite validateForm_password, test_password_re_lines, truthy_str_true.
  split; [by intros (_ & ? & ?) |]. intros [Hlen ?]. split; [|done].
  intros E. rewrite E in Hlen. simpl in Hlen. lia.
Qed.

(** X15.  On a password without line terminators the rule is the plain one: at
    least eight characters, a lowercase letter, an uppercase letter and a
    digit. *)
Theorem password_rule_on_single_line (f : Forms.RegisterFormData) :
  Spec.single_line (Forms.password f) →
  (Forms.validateForm f).1 !! "password"%string = None
  ↔ Spec.strong_password (Forms.password f).
Proof. apply validateForm_password_single_line. Qed.

(** ["Abcdefg1"] passes. *)
Lemma password_rule_on_single_line_witness :
  (Forms.validateForm
     (Samples.sample_form (js "ada@example.org") (js "Abcdefg1"))).1
    !! "password"%string = None
  ↔ Spec.strong_password (js "Abcdefg1").
Proof.
  apply (password_rule_on_single_line
           (Samples.sample_form (js "ada@example.org") (js "Abcdefg1"))).
  intros c Hc. vm_compute in Hc.
  repeat (apply elem_of_cons in Hc as [-> | Hc]; [reflexivity |]).
  by apply elem_of_nil in Hc.
Defined.

(** X16.  [validateForm] returns [true] exactly when every field passes: both
    trimmed names have two characters or more, the email holds the
    [local@domain.tld] shape, the password has eight characters or more
    with the three kinds of character on one line, and the confirmation
    equals the password. *)
Theorem validateForm_accepts_iff (f : Forms.RegisterFormData) :
  (Forms.validateForm f).2 = true
  ↔ (2 ≤ length (trim (Forms.firstName f)))%nat
    ∧ (2 ≤ length (trim (Forms.lastName f)))%nat
    ∧ Spec.contains_email_shape (Forms.email f)
    ∧ (8 ≤ length (Forms.password f))%nat
    ∧ Spec.line_with_all_three (Forms.password f)
    ∧ Forms.password f = Forms.confirmPassword f.
Proof.
  split.
  - intros Hok.
    assert (Hempty : (Forms.validateForm f).1 = ∅).
    { unfold Forms.validateForm in *. cbn [fst snd] in *.
      apply bool_decide_eq_true in Hok. by apply map_size_empty_iff. }
    pose proof (validateForm_firstName f) as Hfn.
    pose proof (validateForm_lastName f) as Hln.
    pose proof (validateForm_email f) as [Hem _].
    pose proof (validateForm_password f) as [Hpw _].
    pose proof (validateForm_confirmPassword f) as [Hcf _].
    rewrite Hempty, lookup_empty in *.
    destruct Hem as [_ Hem]; [done |].
    destruct Hpw as (_ & Hlen & Hpw); [done |].
    destruct Hcf as [_ Hcf]; [done |].
    apply test_email_re in Hem. apply test_password_re_lines in Hpw.
    repeat split; try done.
    + apply name_long_enough.
      by destruct (negb (truthy_str (trim (Forms.firstName f)))),
        (length (trim (Forms.firstName f)) <? 2)%nat.
    + apply name_long_enough.
      by destruct (negb (truthy_str (trim (Forms.lastName f)))),
        (length (trim (Forms.lastName f)) <? 2)%nat.
  - intros (Hfn & Hln & Hem & Hlen & Hpw & Hcf).
    apply name_long_enough in Hfn as [Hfn1 Hfn2], Hln as [Hln1 Hln2].
    apply test_email_re in Hem. apply test_password_re_lines in Hpw.
    assert (Hpw0 : truthy_str (Forms.password f) = true).
    { destruct (Forms.password f); [simpl in Hlen; lia | done]. }
    assert (Hem0 : truthy_str (Forms.email f) = true).
    { destruct (Forms.email f); [by vm_compute in Hem | done]. }
    apply Nat.ltb_ge in Hlen.
    unfold Forms.validateForm, str_eqb. cbn [snd].
    rewrite Hfn1, Hfn2, Hln1, Hln2, Hem0, Hem, Hpw0, Hlen, Hpw, <- Hcf, Hpw0.
    rewrite (bool_decide_eq_true_2 (Forms.password f = Forms.password f))
      by done.
    reflexivity.
Qed.

Section PasswordChange.

Implicit Types (pd : Forms.ChangePasswordRequest) (confirm : jsstr).

Lemma validatePassword_currentPassword pd confirm :
  (Forms.validatePassword pd confirm).1 !! "currentPassword"%string = None
  ↔ Forms.currentPassword pd ≠ [].
Proof.
  unfold Forms.validatePassword. cbn [fst]. rewrite <- truthy_str_true.
  destruct (truthy_str (Forms.currentPassword pd)); cbn [negb];
    lookup_through; split; done.
Qed.

Lemma validatePassword_confirmPassword pd confirm :
  (Forms.validatePassword pd confirm).1 !! "confirmPassword"%string = None
  ↔ confirm ≠ [] ∧ Forms.newPassword pd = confirm.
Proof.
  unfold Forms.validatePassword, str_eqb. cbn [fst].
  rewrite <- truthy_str_true.
  destruct (truthy_str confirm); cbn [negb].
  - destruct (decide (Forms.newPassword pd = confirm)) as [Heq | Hne].
    + rewrite (bool_decide_eq_true_2 _ Heq). cbn [negb].
      lookup_through; split; done.
    + rewrite (bool_decide_eq_false_2 _ Hne). cbn [negb].
      lookup_through; split; (done || (intros [? ?]; done)).
  - lookup_through; split; (done || (intros [? ?]; done)).
Qed.

Lemma validatePassword_reused pd confirm :
  Forms.currentPassword pd = Forms.newPassword pd →
  (Forms.validatePassword pd confirm).1 !! "newPassword"%string ≠ None.
Proof.
  intros Heq. unfold Forms.validatePassword, str_eqb. cbn [fst].
  rewrite (bool_decide_eq_true_2 _ Heq). by rewrite lookup_insert_eq.
Qed.

End PasswordChange.

(** X17.  [validatePassword] returns [true] exactly when the current password is
    non-empty, the new password has eight characters or more with the three
    kinds of character on one line, the confirmation equals the new
    password, and the new password differs from the current one. *)
Theorem validatePassword_accepts_iff
    (pd : Forms.ChangePasswordRequest) (confirm : jsstr) :
  (Forms.validatePassword pd confirm).2 = true
  ↔ Forms.currentPassword pd ≠ []
    ∧ (8 ≤ length (Forms.newPassword pd))%nat
    ∧ Spec.line_with_all_three (Forms.newPassword pd)
    ∧ Forms.newPassword pd = confirm
    ∧ Forms.currentPassword pd ≠ Forms.newPassword pd.
Proof.
  split.
  - intros Hok.
    assert (Hempty : (Forms.validatePassword pd confirm).1 = ∅).
    { unfold Forms.validatePassword in *. cbn [fst snd] in *.
      apply bool_decide_eq_true in Hok. by apply map_size_empty_iff. }
    assert (Hne : Forms.currentPassword pd ≠ Forms.newPassword pd).
    { intros Heq. apply (validatePassword_reused pd confirm Heq).
      by rewrite Hempty. }
    pose proof (validatePassword_currentPassword pd confirm) as [Hcur _].
    pose proof (validatePassword_newPassword pd confirm Hne) as [Hnew _].
    pose proof (validatePassword_confirmPassword pd confirm) as [Hcf _].
    rewrite Hempty, lookup_empty in *.
    destruct Hnew as (_ & Hlen & Hnew); [done |].
    destruct Hcf as [_ Hcf]; [done |].
    apply test_password_re_lines in Hnew. auto.
  - intros (Hcur & Hlen & Hnew & Hcf & Hne).
    apply truthy_str_true in Hcur. apply test_password_re_lines in Hnew.
    assert (Hnew0 : truthy_str (Forms.newPassword pd) = true).
    { destruct (Forms.newPassword pd); [simpl in Hlen; lia | done]. }
    apply Nat.ltb_ge in Hlen.
    unfold Forms.validatePassword, str_eqb. cbn [snd].
    rewrite Hcur, Hnew0, Hlen, Hnew, <- Hcf, Hnew0.
    rewrite (bool_decide_eq_true_2
               (Forms.newPassword pd = Forms.newPassword pd)) by done.
    rewrite (bool_decide_eq_false_2 _ Hne).
    reflexivity.
Qed.

(** X18.  [validateProfile] returns [true] exactly when both names, trimmed, have
    two characters or more. *)
Theorem validateProfile_accepts_iff
    (profileData : ProfileManager.UpdateProfileRequest) :
  (ProfileManager.validateProfile profileData).2 = true
  ↔ (2 ≤ length (trim (ProfileManager.firstName profileData)))%nat
    ∧ (2 ≤ length (trim (ProfileManager.lastName profileData)))%nat.
Proof.
  rewrite <- !name_long_enough. unfold ProfileManager.validateProfile.
  cbn [snd].
  destruct (negb (truthy_str (trim (ProfileManager.firstName profileData)))),
    (length (trim (ProfileManager.firstName profileData)) <? 2)%nat,
    (negb (truthy_str (trim (ProfileManager.lastName profileData)))),
    (length (trim (ProfileManager.lastName profileData)) <? 2)%nat;
    (split; [intros H; by vm_compute in H | intros [[? ?] [? ?]]; done])
    || (split; [done | reflexivity]).
Qed.

(* ===================================================================== *)
(** ** Properties of the form handlers *)
(* ===================================================================== *)

(** X19.  Typing into a field stores the typed value in that field and leaves
    the other fields alone.  The field's error, if one was shown, is
    blanked (its entry stays in the mapping, with the empty message); the
    errors of the other fields are untouched. *)
Theorem handleInputChange_clears_own_error
    (field : RegisterForm.Field) (value : jsstr) (st : RegisterForm.State) :
  RegisterForm.getField field
    (RegisterForm.formData (RegisterForm.handleInputChange field value st))
  = value
  ∧ (∀ other, other ≠ field →
       RegisterForm.getField other
         (RegisterForm.formData (RegisterForm.handleInputChange field value st))
       = RegisterForm.getField other (RegisterForm.formData st))
  ∧ RegisterForm.truthy_entry
      (RegisterForm.errors (RegisterForm.handleInputChange field value st))
      (RegisterForm.key field) = false
  ∧ (∀ k, k ≠ RegisterForm.key field →
       RegisterForm.errors (RegisterForm.handleInputChange field value st) !! k
       = RegisterForm.errors st !! k)
  ∧ dom (RegisterForm.errors (RegisterForm.handleInputChange field value st))
    = dom (RegisterForm.errors st).
Proof.
  unfold RegisterForm.handleInputChange.
  cbn [RegisterForm.formData RegisterForm.errors].
  split; [by destruct field |].
  split; [intros other Hne; by destruct field, other |].
  destruct (RegisterForm.truthy_entry (RegisterForm.errors st)
              (RegisterForm.key field)) eqn:Hentry.
  - split; [|split].
    + unfold RegisterForm.truthy_entry. by rewrite lookup_insert_eq.
    + intros k Hk. by rewrite lookup_insert_ne.
    + rewrite dom_insert_L.
      assert (RegisterForm.key field ∈ dom (RegisterForm.errors st)).
      { apply elem_of_dom. unfold RegisterForm.truthy_entry in Hentry.
        by destruct (RegisterForm.errors st !! RegisterForm.key field). }
      by apply subseteq_union_1_L, singleton_subseteq_l.
  - done.
Qed.

(** X20.  Submitting the registration form: a request is made exactly when
    [validateForm] accepts the form.  When it does not, nothing is sent,
    no timer is set, and the world is untouched.  When it does, the request
    carries the four fields of the form (not the confirmation),
    [isSubmitting] is [false] again at the end, and the redirect timer is
    set only if the request succeeded.  Either way the errors shown are
    those [validateForm] computed. *)
Theorem handleSubmit_sends_iff_valid
    (reply : Settled RegisterForm.AuthResponse Http.AxiosError)
    (st : RegisterForm.State) (w : World) :
  let after := (RegisterForm.handleSubmit reply st w).1 in
  let valid := (Forms.validateForm (RegisterForm.formData st)).2 in
  (RegisterForm.request after = None ↔ valid = false)
  ∧ RegisterForm.errors (RegisterForm.state after)
    = (Forms.validateForm (RegisterForm.formData st)).1
  ∧ (if valid then
       RegisterForm.request after
       = Some {| RegisterForm.firstName :=
                   Forms.firstName (RegisterForm.formData st);
                 RegisterForm.lastName :=
                   Forms.lastName (RegisterForm.formData st);
                 RegisterForm.email := Forms.email (RegisterForm.formData st);
                 RegisterForm.password :=
                   Forms.password (RegisterForm.formData st) |}
       ∧ RegisterForm.isSubmitting (RegisterForm.state after) = false
       ∧ (RegisterForm.timer after = Some (2000%Z, js "/login")
          ↔ ∃ r, reply = Fulfilled r)
     else
       (RegisterForm.handleSubmit reply st w).2 = w
       ∧ RegisterForm.timer after = None
       ∧ RegisterForm.isSubmitting (RegisterForm.state after)
         = RegisterForm.isSubmitting st).
Proof.
  unfold RegisterForm.handleSubmit, RegisterForm.register.
  destruct (Forms.validateForm (RegisterForm.formData st)) as [errs [|]];
    cbn [negb fst snd].
  - destruct reply as [r|e];
      cbv [mbind mret M_bind M_ret console_error emit];
      [|destruct (Http.responseError e w) as [r1 w1]]; cbn;
      (split; [split; done |]); (split; [done |]);
      (split; [done |]); (split; [done |]); split; try done.
    + eauto.
    + intros [r [=]].
  - cbn. repeat split; done.
Qed.

(** X21.  Saving the profile with valid names and a successful response puts the
    server's user record into the session store and touches nothing else
    there: the token and the authenticated mark stay as they were.  The
    request made carries the two names. *)
Theorem handleProfileUpdate_updates_user
    (updated : UserResponse) (st : ProfileManager.State) (w : World) :
  (ProfileManager.validateProfile (ProfileManager.profileData st)).2 = true →
  (ProfileManager.handleProfileUpdate (Fulfilled updated) st w).1.2
  = Some (ProfileManager.profileData st)
  ∧ user (store (ProfileManager.handleProfileUpdate (Fulfilled updated) st w).2)
    = Some updated
  ∧ token (store (ProfileManager.handleProfileUpdate (Fulfilled updated) st w).2)
    = token (store w)
  ∧ isAuthenticated
      (store (ProfileManager.handleProfileUpdate (Fulfilled updated) st w).2)
    = isAuthenticated (store w)
  ∧ events (ProfileManager.handleProfileUpdate (Fulfilled updated) st w).2
    = events w ++ [EvStore (Store.UpdateUser updated)]
  ∧ ProfileManager.profileMessage
      (ProfileManager.handleProfileUpdate (Fulfilled updated) st w).1.1
    = Http.VString (js "Profile updated successfully!").
Proof.
  intros Hvalid. unfold ProfileManager.handleProfileUpdate.
  destruct (ProfileManager.validateProfile (ProfileManager.profileData st))
    as [errs valid]. cbn [snd] in Hvalid. subst valid.
  cbn [negb]. unfold ProfileManager.updateProfile. run_world.
  repeat split.
Qed.

(** The customer of the samples renames herself. *)
Lemma handleProfileUpdate_updates_user_witness :
  user (store (ProfileManager.handleProfileUpdate
                 (Fulfilled Samples.renamed_customer) Samples.profile_form
                 Samples.browser_world).2)
  = Some Samples.renamed_customer
  ∧ token (store (ProfileManager.handleProfileUpdate
                    (Fulfilled Samples.renamed_customer) Samples.profile_form
                    Samples.browser_world).2)
    = Some (js "abc").
Proof.
  destruct (handleProfileUpdate_updates_user Samples.renamed_customer
              Samples.profile_form Samples.browser_world)
    as (_ & Husr & Htok & _); [reflexivity |].
  split; [exact Husr | exact Htok].
Defined.

(** X22.  Saving the profile with a name that does not pass [validateProfile]
    makes no request and leaves the world, the session store included, as
    it was. *)
Theorem handleProfileUpdate_blocked
    (reply : Settled UserResponse Http.AxiosError)
    (st : ProfileManager.State) (w : World) :
  (ProfileManager.validateProfile (ProfileManager.profileData st)).2 = false →
  (ProfileManager.handleProfileUpdate reply st w).1.2 = None
  ∧ (ProfileManager.handleProfileUpdate reply st w).2 = w
  ∧ ProfileManager.profileErrors
      (ProfileManager.handleProfileUpdate reply st w).1.1
    = (ProfileManager.validateProfile (ProfileManager.profileData st)).1.
Proof.
  intros Hvalid. unfold ProfileManager.handleProfileUpdate.
  destruct (ProfileManager.validateProfile (ProfileManager.profileData st))
    as [errs valid]. cbn [snd] in Hvalid. subst valid.
  cbn. repeat split.
Qed.

(** A one-letter first name. *)
Lemma handleProfileUpdate_blocked_witness :
  (ProfileManager.handleProfileUpdate (Fulfilled Samples.renamed_customer)
     Samples.short_name_form Samples.browser_world).1.2 = None
  ∧ (ProfileManager.handleProfileUpdate (Fulfilled Samples.renamed_customer)
       Samples.short_name_form Samples.browser_world).2
    = Samples.browser_world.
Proof.
  destruct (handleProfileUpdate_blocked (Fulfilled Samples.renamed_customer)
              Samples.short_name_form Samples.browser_world)
    as (Hreq & Hworld & _); [reflexivity |].
  split; [exact Hreq | exact Hworld].
Defined.

(** X23.  Changing the password: a request is made exactly when
    [validatePassword] accepts, and it carries the current and the new
    password.  The three password fields are emptied when the request
    succeeds and only then; after a failure they still hold what was
    typed.  Whenever a request was made, [isChangingPassword] is [false]
    at the end, whether it succeeded or failed; without a request it is
    left alone; [isUpdatingProfile] is never touched. *)
Theorem handlePasswordChange_clears_on_success
    (reply : Settled unit Http.AxiosError) (st : ProfileManager.State)
    (w : World) :
  let after := (ProfileManager.handlePasswordChange reply st w).1 in
  let valid :=
    (Forms.validatePassword (ProfileManager.passwordData st)
       (ProfileManager.confirmPassword st)).2 in
  after.2 = (if valid then Some (ProfileManager.passwordData st) else None)
  ∧ match valid, reply with
    | true, Fulfilled _ =>
        ProfileManager.passwordData after.1
        = {| Forms.currentPassword := js ""; Forms.newPassword := js "" |}
        ∧ ProfileManager.confirmPassword after.1 = js ""
    | _, _ =>
        ProfileManager.passwordData after.1 = ProfileManager.passwordData st
        ∧ ProfileManager.confirmPassword after.1
          = ProfileManager.confirmPassword st
    end
  ∧ ProfileManager.isChangingPassword after.1
    = (if valid then false else ProfileManager.isChangingPassword st)
  ∧ ProfileManager.isUpdatingProfile after.1
    = ProfileManager.isUpdatingProfile st.
Proof.
  unfold ProfileManager.handlePasswordChange, ProfileManager.changePassword.
  destruct (Forms.validatePassword (ProfileManager.passwordData st)
              (ProfileManager.confirmPassword st)) as [errs [|]];
    cbn [negb fst snd andb].
  - destruct reply as [r|e];
      cbv [mbind mret M_bind M_ret console_error emit];
      [|destruct (Http.responseError e w) as [r1 w1]]; cbn; done.
  - cbn. done.
Qed.

(* ===================================================================== *)
(** ** Properties of the booking page's authentication check *)
(* ===================================================================== *)

(** X24.  As long as the session has no user record, the check neither finishes
    nor redirects, however often it runs: a visitor who is not logged in
    stays on "Checking authentication..." and is never sent to the login
    page by this page. *)
Theorem booking_check_waits_for_user (renders : list AuthState) :
  Forall (λ s, user s = None) renders →
  Booking.authChecks renders true = (true, [])
  ∧ ∀ s, Booking.view s (Booking.authChecks renders true).1
         = Booking.ViewChecking.
Proof.
  intros Hnone.
  assert (Hafter : ∀ later, Forall (λ s, user s = None) later →
            ∀ prev, Booking.authChecksAfter prev later true = (true, [])).
  { induction 1 as [|s later Hs _ IH]; intros prev; [done |].
    cbn [Booking.authChecksAfter]. case_bool_decide; [apply IH |].
    unfold Booking.authCheck. by rewrite Hs, IH. }
  assert (Hruns : Booking.authChecks renders true = (true, [])).
  { destruct Hnone as [|s later Hs Hlater]; [done |].
    unfold Booking.authChecks, Booking.authCheck.
    by rewrite Hs, (Hafter later Hlater). }
  split; [done |]. intros s. rewrite Hruns. unfold Booking.view. cbn.
  by rewrite orb_true_r.
Qed.

(** The empty session, rendered twice. *)
Lemma booking_check_waits_for_user_witness :
  Booking.authChecks [Store.initial; Store.initial] true = (true, []).
Proof.
  apply (booking_check_waits_for_user [Store.initial; Store.initial]).
  repeat constructor.
Defined.

(** X25.  The only route the check ever pushes is ["/login"], and it pushes it
    only for a render whose session has a user record, is not loading and
    is not marked authenticated. *)
Theorem booking_check_redirects_only_with_user
    (renders : list AuthState) (isCheckingAuth : bool) (path : jsstr) :
  Booking.RouterPush path ∈ (Booking.authChecks renders isCheckingAuth).2 →
  path = js "/login"
  ∧ ∃ s, s ∈ renders ∧ user s ≠ None ∧ isLoading s = false
         ∧ isAuthenticated s = false.
Proof.
  assert (Hstep : ∀ s chk,
            Booking.RouterPush path ∈ (Booking.authCheck s chk).2 →
            path = js "/login"
            ∧ user s ≠ None ∧ isLoading s = false
            ∧ isAuthenticated s = false).
  { intros s chk. unfold Booking.authCheck.
    destruct (user s) as [u|] eqn:Hu;
      [|intros Hin; by apply elem_of_nil in Hin].
    destruct (isLoading s) eqn:Hld; cbn [negb snd];
      [intros Hin; by apply elem_of_nil in Hin |].
    destruct (isAuthenticated s) eqn:Hau; cbn [negb snd]; intros Hin.
    - apply list_elem_of_singleton in Hin. discriminate Hin.
    - apply elem_of_cons in Hin as [Hin | Hin]; [discriminate Hin |].
      apply list_elem_of_singleton in Hin. injection Hin as ->. done. }
  assert (Hafter : ∀ renders' prev chk,
            Booking.RouterPush path
              ∈ (Booking.authChecksAfter prev renders' chk).2 →
            path = js "/login"
            ∧ ∃ s, s ∈ renders' ∧ user s ≠ None ∧ isLoading s = false
                   ∧ isAuthenticated s = false).
  { induction renders' as [|s renders' IH]; intros prev chk;
      cbn [Booking.authChecksAfter].
    - cbn. intros H. by apply elem_of_nil in H.
    - case_bool_decide.
      + intros Hin. destruct (IH _ _ Hin) as (Hpath & s' & Hs' & ?).
        split; [done |]. exists s'. split; [by right | done].
      + pose proof (Hstep s chk) as Hs.
        destruct (Booking.authCheck s chk) as [chk1 evs].
        pose proof (IH s chk1) as Hrest.
        destruct (Booking.authChecksAfter s renders' chk1) as [chk2 evs'].
        cbn [snd] in *. intros [Hin | Hin]%elem_of_app.
        * destruct (Hs Hin) as (Hpath & ?). split; [done |].
          exists s. split; [by left | done].
        * destruct (Hrest Hin) as (Hpath & s' & Hs' & ?).
          split; [done |]. exists s'. split; [by right | done]. }
  destruct renders as [|s renders]; unfold Booking.authChecks.
  - cbn. intros H. by apply elem_of_nil in H.
  - pose proof (Hstep s isCheckingAuth) as Hs.
    destruct (Booking.authCheck s isCheckingAuth) as [chk1 evs].
    pose proof (Hafter renders s chk1) as Hrest.
    destruct (Booking.authChecksAfter s renders chk1) as [chk2 evs'].
    cbn [snd] in *. intros [Hin | Hin]%elem_of_app.
    + destruct (Hs Hin) as (Hpath & ?). split; [done |].
      exists s. split; [by left | done].
    + destruct (Hrest Hin) as (Hpath & s' & Hs' & ?).
      split; [done |]. exists s'. split; [by right | done].
Qed.

(** A session with a user record and no token: the check sends the visitor
    to the login page. *)
Lemma booking_check_redirects_only_with_user_witness :
  js "/login" = js "/login"
  ∧ ∃ s, s ∈ [Samples.user_without_token] ∧ user s ≠ None
         ∧ isLoading s = false ∧ isAuthenticated s = false.
Proof.
  apply (booking_check_redirects_only_with_user
           [Samples.user_without_token] true (js "/login")).
  vm_compute. apply list_elem_of_further, list_elem_of_here.
Defined.
